(** * DropSync: the supplier-feed / eBay reconciliation engine

    A shallow embedding of [src/sync_engine.py] (class [EbaySyncEngine])
    and the properties of its five steps: feed normalisation, paginated
    listing retrieval, diffing, batched update and the run summary.

    Conventions of the embedding.
    - Python [int] is [Z]; [str] is [string], read as a sequence of code
      points below 256.
    - The literal parsers [int(str)] and [float(str)] and [str(exception)]
      are Python built-ins; they are parameters of the development
      ([py_int], [py_float], [py_str]).  A parsed float is an IEEE-754 datum
      ([spec_float]); [int(float)] is defined on it.
    - HTTP and XML are seen through the queries the code makes: a response
      is a record holding the result of each [find]/[findall]/[findtext].
      The remote world is an oracle ([env]) that answers each request from
      the requests made so far; every request is appended to a trace.
    - [while True] runs on fuel; running out of fuel is a result of its own
      ([None]), distinct from returning and from raising.
    - [duration_seconds] (wall-clock time) and logging are left out. *)

From Stdlib Require Import ZArith List String Ascii Lia.
From Stdlib Require Import Floats.SpecFloat.
From stdpp Require Import gmap strings list fin_maps.

Local Open Scope string_scope.
Local Open Scope Z_scope.
Local Open Scope list_scope.

(** ** Python values and built-ins *)

(** Exceptions the engine can meet; all are subclasses of [Exception]. *)
Inductive exn : Type :=
| LibError (cls msg : string)      (* raised by requests, csv or ElementTree *)
| ValueError (literal : string)    (* int() / float() of a malformed literal *)
| ValueErrorNaN                    (* int(float('nan')) *)
| OverflowError                    (* int(float('inf')) *)
| TypeError                        (* int(None) *)
| AttributeError                   (* None.strip() *)
| RuntimeError (msgs : list string). (* RuntimeError(f"GetSellerList failed: {msgs}") *)

Inductive result (A : Type) : Type :=
| Ok (a : A)
| Raise (e : exn).
Arguments Ok {A} a.
Arguments Raise {A} e.

Definition rbind {A B} (r : result A) (k : A -> result B) : result B :=
  match r with
  | Ok a => k a
  | Raise e => Raise e
  end.

(** [except ValueError]: the two [ValueError]s of the embedding. *)
Definition is_ValueError (e : exn) : bool :=
  match e with
  | ValueError _ | ValueErrorNaN => true
  | _ => false
  end.

(** [str.isspace] on code points below 256. *)
Definition py_isspace (c : ascii) : bool :=
  let n := nat_of_ascii c in
  ((9 <=? n) && (n <=? 13) || (28 <=? n) && (n <=? 32)
   || (n =? 133) || (n =? 160))%nat.

Fixpoint lstrip (s : string) : string :=
  match s with
  | EmptyString => EmptyString
  | String c s' => if py_isspace c then lstrip s' else s
  end.

Fixpoint rstrip (s : string) : string :=
  match s with
  | EmptyString => EmptyString
  | String c s' =>
      match rstrip s' with
      | EmptyString => if py_isspace c then EmptyString else String c EmptyString
      | r => String c r
      end
  end.

(** [str.strip()] *)
Definition strip (s : string) : string := rstrip (lstrip s).

(** [str.lower()] on code points below 256: A-Z, and the Latin-1 capitals
    U+00C0..U+00DE except the multiplication sign U+00D7. *)
Definition py_lower_char (c : ascii) : ascii :=
  let n := nat_of_ascii c in
  if ((65 <=? n) && (n <=? 90)
      || (192 <=? n) && (n <=? 222) && negb (n =? 215))%nat
  then ascii_of_nat (n + 32) else c.

Fixpoint lower (s : string) : string :=
  match s with
  | EmptyString => EmptyString
  | String c s' => String (py_lower_char c) (lower s')
  end.

(** Truthiness of a string: [if not sku]. *)
Definition str_truthy (s : string) : bool :=
  match s with
  | EmptyString => false
  | _ => true
  end.

(** [x in (a, b, ...)] for strings. *)
Definition str_in (x : string) (l : list string) : bool :=
  existsb (String.eqb x) l.

(** [int(x)] for a float [x]: truncation towards zero; infinities and NaN
    raise. *)
Definition int_of_float (x : spec_float) : result Z :=
  match x with
  | S754_zero _ => Ok 0
  | S754_infinity _ => Raise OverflowError
  | S754_nan => Raise ValueErrorNaN
  | S754_finite s m e =>
      let n := Z.shiftl (Z.pos m) e in
      Ok (if s then - n else n)
  end.

(** ** Data model *)

(** A row of [csv.DictReader]: field name to value; a row shorter than the
    header holds [None] for the missing fields. *)
Abbreviation row := (gmap string (option string)).

(** [row.get(key, default)] *)
Definition row_get (r : row) (key default : string) : option string :=
  match r !! key with
  | Some v => v
  | None => Some default
  end.

(** [v.strip()] for a value that may be [None]. *)
Definition val_strip (v : option string) : result string :=
  match v with
  | Some s => Ok (strip s)
  | None => Raise AttributeError
  end.

(** [column_mapping.get(key, default)]; the values of a mapping are
    strings. *)
Definition mapping_get (m : gmap string string) (key default : string) : string :=
  match m !! key with
  | Some v => v
  | None => default
  end.

(** Truthiness of [column_mapping]: neither [None] nor the empty dict. *)
Definition mapping_truthy (cm : option (gmap string string)) : bool :=
  match cm with
  | Some m => negb (bool_decide (m = ∅))
  | None => false
  end.

(** The dict built by [_fetch_listings_page] for an active listing. *)
Record listing : Type := mk_listing {
  l_item_id : string;
  l_sku : string;
  l_current_qty : Z
}.

(** The dict appended to [updates_needed]. *)
Record update : Type := mk_update {
  u_item_id : string;
  u_sku : string;
  u_old_qty : Z;
  u_new_qty : Z
}.

(** The text of an XML element that was found: [None] when it has none. *)
Abbreviation xml_text := (option string).

(** [findtext(path, default)]: the default when the element is missing, the
    empty string when the element has no text. *)
Definition findtext (el : option xml_text) (default : string) : string :=
  match el with
  | None => default
  | Some None => ""
  | Some (Some s) => s
  end.

(** An [Errors] element of a response. *)
Record error_el : Type := mk_error_el {
  ErrorCode : option xml_text;
  LongMessage : option xml_text;
  ShortMessage : option xml_text
}.

(** An [ItemArray/Item] element of a GetSellerList response. *)
Record item_el : Type := mk_item_el {
  ItemID : option xml_text;
  SKU : option xml_text;
  ListingStatus : option xml_text;
  Quantity : option xml_text;
  QuantitySold : option xml_text
}.

(** A parsed GetSellerList response. *)
Record seller_list_root : Type := mk_seller_list_root {
  sl_Ack : option xml_text;
  sl_Errors : list error_el;
  sl_Items : list item_el;
  sl_PaginationResult : option (option xml_text); (* its TotalNumberOfPages *)
  sl_HasMoreItems : option xml_text
}.

(** A parsed ReviseInventoryStatus response: the acknowledgment and the
    number of [InventoryStatus] elements. *)
Record revise_root : Type := mk_revise_root {
  rv_Ack : option xml_text;
  rv_InventoryStatus : nat
}.

(** The dict returned by [run_sync], without [duration_seconds]. *)
Record sync_result : Type := mk_sync_result {
  status : string;
  total_listings_checked : Z;
  items_updated : Z;
  items_failed : Z;
  items_out_of_stock : Z;
  unmatched_skus : Z;
  error_message : option string
}.

(** ** The remote world *)

Inductive event : Type :=
| EGetFeed (url : string)
| EGetSellerList (page : Z)
| EReviseInventoryStatus (batch : list update).

Abbreviation trace := (list event).

(** The answers of the network, each a function of the requests made so far.
    [http_get] is [requests.get] with [raise_for_status], read through
    [csv.DictReader]; the two API calls are [requests.post] with
    [raise_for_status] and [ET.fromstring]. *)
Record env : Type := mk_env {
  http_get : trace -> string -> result (list row);
  get_seller_list : trace -> Z -> result seller_list_root;
  revise_inventory_status : trace -> list update -> result revise_root
}.

(** Computations: a trace in, and either no answer (out of fuel) or a result
    with the extended trace. *)
Definition M (A : Type) : Type := trace -> option (result A * trace).

Definition ret {A} (a : A) : M A := fun tr => Some (Ok a, tr).

Definition raise {A} (e : exn) : M A := fun tr => Some (Raise e, tr).

Definition out_of_fuel {A} : M A := fun _ => None.

Definition bind {A B} (m : M A) (k : A -> M B) : M B :=
  fun tr =>
    match m tr with
    | Some (Ok a, tr') => k a tr'
    | Some (Raise e, tr') => Some (Raise e, tr')
    | None => None
    end.

(** [try: m  except Exception as e: h e] *)
Definition try_except {A} (m : M A) (h : exn -> M A) : M A :=
  fun tr =>
    match m tr with
    | Some (Raise e, tr') => h e tr'
    | r => r
    end.

Definition lift {A} (r : result A) : M A := fun tr => Some (r, tr).

Definition request {A} (ev : event) (answer : trace -> result A) : M A :=
  fun tr => Some (answer tr, tr ++ [ev]).

#[local] Instance M_ret : MRet M := @ret.
#[local] Instance M_bind : MBind M := fun A B k m => bind m k.
#[local] Instance result_ret : MRet result := @Ok.
#[local] Instance result_bind : MBind result := fun A B k r => rbind r k.

(** [try: r  except ValueError: h] *)
Definition except_ValueError {A} (r : result A) (h : result A) : result A :=
  match r with
  | Raise e => if is_ValueError e then h else Raise e
  | Ok a => Ok a
  end.

(** [for x in xs: stock = body x stock], stopping at the first exception. *)
Fixpoint for_rows {X S} (body : X -> S -> result S) (xs : list X) (s : S) : result S :=
  match xs with
  | [] => Ok s
  | x :: rest => s' ← body x s; for_rows body rest s'
  end.

(** [self.batch_size = 4  # eBay max] *)
Definition batch_size : nat := 4.

(** [range(0, n, step)] *)
Definition range0 (n step : nat) : list nat :=
  map (fun k => (k * step)%nat) (seq 0 ((n + step - 1) / step)).

(** [xs[i : i + k]] *)
Definition slice {A} (xs : list A) (i k : nat) : list A := take k (drop i xs).

(** [len(xs)] *)
Definition len {A} (xs : list A) : Z := Z.of_nat (length xs).

(** [ack in ("Success", "Warning")] *)
Definition ack_accepted (ack : string) : bool := str_in ack ["Success"; "Warning"].

(** ** Sample built-ins and inputs

    Instances of the parameters for the closed examples below.  They agree
    with Python on the literals used there: plain decimal digit strings,
    ["inf"] and ["nan"]. *)

Fixpoint digits_value (s : string) (acc : Z) : option Z :=
  match s with
  | EmptyString => Some acc
  | String c s' =>
      let n := nat_of_ascii c in
      if ((48 <=? n) && (n <=? 57))%nat
      then digits_value s' (10 * acc + (Z.of_nat n - 48))
      else None
  end.

Definition sample_int (s : string) : option Z :=
  match strip s with
  | EmptyString => None
  | t => digits_value t 0
  end.

Definition sample_float (s : string) : option spec_float :=
  let t := lower (strip s) in
  if String.eqb t "inf" then Some (S754_infinity false)
  else if String.eqb t "nan" then Some S754_nan
  else
    match sample_int t with
    | Some (Z.pos m) => Some (S754_finite false m 0)
    | Some _ => Some (S754_zero false)
    | None => None
    end.

Definition sample_str (e : exn) : string :=
  match e with
  | LibError cls msg => msg
  | ValueError literal => "invalid literal: " +:+ literal
  | ValueErrorNaN => "cannot convert float NaN to integer"
  | OverflowError => "cannot convert float infinity to integer"
  | TypeError => "int() argument must be a string, a bytes-like object or a real number"
  | AttributeError => "'NoneType' object has no attribute 'strip'"
  | RuntimeError msgs => "GetSellerList failed: " +:+ String.concat ", " msgs
  end.

(** [{key1: v1, key2: v2, ...}] with string values. *)
Definition mk_row (fields : list (string * string)) : row :=
  list_to_map (map (fun kv => (fst kv, Some (snd kv))) fields).

(** Two azuregreen rows: [A] in stock, [B] out of stock. *)
Definition sample_rows : list row :=
  [mk_row [("NUMBER", "A"); ("UNITS", "1"); ("CANTSELL", "0")];
   mk_row [("NUMBER", "B"); ("UNITS", "0"); ("CANTSELL", "0")]].

(** The stock map of [sample_rows]. *)
Definition sample_stock : gmap string Z := {["A" := 1; "B" := 0]}.

(** The stock map holding only [X1], out of stock. *)
Definition x1_out_of_stock : gmap string Z := {["X1" := 0]}.

(** An item element of a response. *)
Definition sample_item (id sku status quantity sold : string) : item_el :=
  {| ItemID := Some (Some id);
     SKU := Some (Some sku);
     ListingStatus := Some (Some status);
     Quantity := Some (Some quantity);
     QuantitySold := Some (Some sold) |}.

(** A one-page answer: [A] listed with 0 available, [B] with 1. *)
Definition sample_page : seller_list_root :=
  {| sl_Ack := Some (Some "Success");
     sl_Errors := [];
     sl_Items := [sample_item "I1" "A" "Active" "3" "3";
                  sample_item "I2" "B" "Active" "1" "0"];
     sl_PaginationResult := Some (Some (Some "1"));
     sl_HasMoreItems := Some (Some "false") |}.

(** A rejected answer. *)
Definition sample_failure : seller_list_root :=
  {| sl_Ack := Some (Some "Failure");
     sl_Errors := [{| ErrorCode := Some (Some "931");
                      LongMessage := Some (Some "Auth token is invalid.");
                      ShortMessage := Some (Some "Invalid token") |}];
     sl_Items := [];
     sl_PaginationResult := None;
     sl_HasMoreItems := None |}.

(** An answer that always announces more items. *)
Definition endless_page : seller_list_root :=
  {| sl_Ack := Some (Some "Success");
     sl_Errors := [];
     sl_Items := [];
     sl_PaginationResult := Some (Some (Some "1"));
     sl_HasMoreItems := Some (Some "true") |}.

(** Every item of a batch is acknowledged. *)
Definition revise_accepts (batch : list update) : result revise_root :=
  Ok {| rv_Ack := Some (Some "Success"); rv_InventoryStatus := length batch |}.

(** The number of update requests in a trace. *)
Definition revise_count (tr : trace) : nat :=
  length (List.filter
            (fun ev => match ev with EReviseInventoryStatus _ => true | _ => false end) tr).

(** A server on which everything works. *)
Definition env_ok : env :=
  {| http_get := fun _ _ => Ok sample_rows;
     get_seller_list := fun _ _ => Ok sample_page;
     revise_inventory_status := fun _ batch => revise_accepts batch |}.

(** The feed cannot be downloaded. *)
Definition env_feed_down : env :=
  {| http_get := fun _ _ => Raise (LibError "HTTPError" "503 Server Error");
     get_seller_list := fun _ _ => Ok sample_page;
     revise_inventory_status := fun _ batch => revise_accepts batch |}.

(** The second update request fails in transport. *)
Definition env_second_batch_fails : env :=
  {| http_get := fun _ _ => Ok sample_rows;
     get_seller_list := fun _ _ => Ok sample_page;
     revise_inventory_status := fun tr batch =>
       match revise_count tr with
       | 1%nat => Raise (LibError "ConnectionError" "connection reset")
       | _ => revise_accepts batch
       end |}.

(** The server never ends the listing. *)
Definition env_endless : env :=
  {| http_get := fun _ _ => Ok sample_rows;
     get_seller_list := fun _ _ => Ok endless_page;
     revise_inventory_status := fun _ batch => revise_accepts batch |}.

Definition sample_update (n : Z) : update :=
  {| u_item_id := "I"; u_sku := "S"; u_old_qty := n; u_new_qty := 0 |}.

Definition nine_updates : list update := map sample_update [1; 2; 3; 4; 5; 6; 7; 8; 9].

(** A custom row under every column name a SKU could be read from. *)
Definition custom_row (sku quantity : string) : row :=
  mk_row [("SKU", sku); ("NUMBER", sku); ("Product ID", sku); ("Quantity", quantity)].

(** A row cut short after its first field: [UNITS] holds [None]. *)
Definition short_row : row := <["UNITS" := None]> (mk_row [("NUMBER", "X9")]).

(** An accepted answer with an inactive item and an active item whose
    quantity is no number. *)
Definition bad_quantity_page : seller_list_root :=
  {| sl_Ack := Some (Some "Success");
     sl_Errors := [];
     sl_Items := [sample_item "I1" "A" "Completed" "n/a" "n/a";
                  sample_item "" "" "Active" "many" "0"];
     sl_PaginationResult := Some (Some (Some "1"));
     sl_HasMoreItems := None |}.

(** An accepted answer whose [TotalNumberOfPages] element has no text. *)
Definition no_page_count_page : seller_list_root :=
  {| sl_Ack := Some (Some "Success");
     sl_Errors := [];
     sl_Items := [sample_item "I1" "A" "Active" "3" "3"];
     sl_PaginationResult := Some (Some None);
     sl_HasMoreItems := None |}.

Definition env_no_page_count : env :=
  {| http_get := fun _ _ => Ok sample_rows;
     get_seller_list := fun _ _ => Ok no_page_count_page;
     revise_inventory_status := fun _ batch => revise_accepts batch |}.

(** No update request gets through. *)
Definition env_updates_down : env :=
  {| http_get := fun _ _ => Ok sample_rows;
     get_seller_list := fun _ _ => Ok sample_page;
     revise_inventory_status := fun _ _ =>
       Raise (LibError "ConnectionError" "connection reset") |}.

(** The listings of [sample_page]. *)
Definition sample_listings : list listing :=
  [mk_listing "I1" "A" 0; mk_listing "I2" "B" 1].

(** The result of a run on [env_ok]. *)
Definition sample_result : sync_result :=
  {| status := "completed";
     total_listings_checked := 2;
     items_updated := 2;
     items_failed := 0;
     items_out_of_stock := 1;
     unmatched_skus := 0;
     error_message := None |}.

(** The requests of a run on [env_ok]. *)
Definition sample_trace : trace :=
  [EGetFeed "feed"; EGetSellerList 1;
   EReviseInventoryStatus [mk_update "I1" "A" 0 1; mk_update "I2" "B" 1 0]].

(** Consecutive chunks of at most [k] elements. *)
Fixpoint chunks_aux {A} (fuel k : nat) (xs : list A) : list (list A) :=
  match fuel with
  | O => []
  | S fuel' =>
      match xs with
      | [] => []
      | _ => take k xs :: chunks_aux fuel' k (drop k xs)
      end
  end.

Definition chunks {A} (k : nat) (xs : list A) : list (list A) :=
  chunks_aux (length xs) k xs.

Section Engine.

(** [int(s)] and [float(s)] for a string: [None] is [ValueError]. *)
Variable py_int : string -> option Z.
Variable py_float : string -> option spec_float.
(** [str(e)] *)
Variable py_str : exn -> string.

Variable E : env.

Definition int_of_str (s : string) : result Z :=
  match py_int s with
  | Some n => Ok n
  | None => Raise (ValueError s)
  end.

Definition float_of_str (s : string) : result spec_float :=
  match py_float s with
  | Some x => Ok x
  | None => Raise (ValueError s)
  end.

(** [int(t)] for the text of an element, which may be [None]. *)
Definition int_of_text (t : xml_text) : result Z :=
  match t with
  | Some s => int_of_str s
  | None => Raise TypeError
  end.

(** [build_headers]: [None] is the [KeyError] of a configuration without
    [app_id], [dev_id] or [cert_id]. *)
Definition build_headers (config : gmap string string) (call_name : string)
    : option (gmap string string) :=
  let site_id := mapping_get config "site_id" "0" in
  app_id ← config !! "app_id";
  dev_id ← config !! "dev_id";
  cert_id ← config !! "cert_id";
  Some (list_to_map
          [("X-EBAY-API-SITEID", site_id);
           ("X-EBAY-API-COMPATIBILITY-LEVEL", "967");
           ("X-EBAY-API-CALL-NAME", call_name);
           ("X-EBAY-API-APP-NAME", app_id);
           ("X-EBAY-API-DEV-NAME", dev_id);
           ("X-EBAY-API-CERT-NAME", cert_id);
           ("Content-Type", "text/xml")]).

(** The [column_mapping] that [run_sync_job] ([src/main.py]) builds from a
    feed whose two columns are set. *)
Definition job_column_mapping (sku_column quantity_column : string) : gmap string string :=
  {["sku_column" := sku_column; "quantity_column" := quantity_column]}.

(** *** Feed normaliser: the three loop bodies of
    [download_supplier_stock] *)

(** [try: qty = int(float(qty_raw))  except ValueError: qty = 0] *)
Definition parse_float_qty (qty_raw : string) : result Z :=
  except_ValueError (x ← float_of_str qty_raw; int_of_float x) (Ok 0).

(** [1 if qty > 0 else 0] *)
Definition binary (qty : Z) : Z := if 0 <? qty then 1 else 0.

Definition azuregreen_body (r : row) (stock : gmap string Z) : result (gmap string Z) :=
  sku ← val_strip (row_get r "NUMBER" "");
  qty_raw ← val_strip (row_get r "UNITS" "0");
  cant_sell ← val_strip (row_get r "CANTSELL" "0");
  if negb (str_truthy sku) then Ok stock
  else
    qty ← parse_float_qty qty_raw;
    let qty := if String.eqb cant_sell "1" then 0 else qty in
    Ok (<[sku := binary qty]> stock).

Definition diecast_body (r : row) (stock : gmap string Z) : result (gmap string Z) :=
  sku ← val_strip (row_get r "Product ID" "");
  qty_raw ← val_strip (row_get r "Product Visible" "0");
  if negb (str_truthy sku) then Ok stock
  else
    qty ← except_ValueError (int_of_str qty_raw)
            (if str_in (lower qty_raw) ["yes"; "true"; "1"; "available"]
             then Ok 1 else Ok 0);
    Ok (<[sku := binary qty]> stock).

Definition custom_body (column_mapping : gmap string string)
    (r : row) (stock : gmap string Z) : result (gmap string Z) :=
  sku ← val_strip (row_get r (mapping_get column_mapping "sku_column" "SKU") "");
  qty_raw ← val_strip (row_get r (mapping_get column_mapping "quantity_column" "Quantity") "0");
  if negb (str_truthy sku) then Ok stock
  else
    qty ← parse_float_qty qty_raw;
    Ok (<[sku := binary qty]> stock).

(** The part of [download_supplier_stock] after the download: the
    dispatch on [feed_type] and the loop over the rows. *)
Definition parse_feed (feed_type : string) (column_mapping : option (gmap string string))
    (rows : list row) : result (gmap string Z) :=
  let stock : gmap string Z := ∅ in
  if String.eqb feed_type "azuregreen" then for_rows azuregreen_body rows stock
  else if String.eqb feed_type "diecast" then for_rows diecast_body rows stock
  else if String.eqb feed_type "custom" && mapping_truthy column_mapping then
    match column_mapping with
    | Some cm => for_rows (custom_body cm) rows stock
    | None => Ok stock
    end
  else Ok stock.

Definition download_supplier_stock (feed_url feed_type : string)
    (column_mapping : option (gmap string string)) : M (gmap string Z) :=
  rows ← request (EGetFeed feed_url) (fun tr => http_get E tr feed_url);
  lift (parse_feed feed_type column_mapping rows).

(** *** Listing fetcher *)

(** [f"[{code}] {msg}"] for one [Errors] element. *)
Definition error_entry (err : error_el) : string :=
  let code := findtext (ErrorCode err) "" in
  let msg :=
    if str_truthy (findtext (LongMessage err) "")
    then findtext (LongMessage err) "" else findtext (ShortMessage err) "" in
  "[" +:+ code +:+ "] " +:+ msg.

(** [int(el.text) if el is not None and el.text else 0] *)
Definition int_or_zero (el : option xml_text) : result Z :=
  match el with
  | Some (Some s) => if str_truthy s then int_of_str s else Ok 0
  | _ => Ok 0
  end.

(** The body of the loop over [ItemArray/Item]. *)
Definition item_body (item : item_el) (items : list listing) : result (list listing) :=
  let item_id := findtext (ItemID item) "" in
  let sku := strip (findtext (SKU item) "") in
  let status := findtext (ListingStatus item) "" in
  if negb (String.eqb status "Active") then Ok items
  else
    qty_total ← int_or_zero (Quantity item);
    qty_sold ← int_or_zero (QuantitySold item);
    let qty_available := Z.max 0 (qty_total - qty_sold) in
    if str_truthy item_id && str_truthy sku
    then Ok (items ++ [mk_listing item_id sku qty_available])
    else Ok items.

(** [_fetch_listings_page] once the response is parsed. *)
Definition listings_page (root : seller_list_root) : result (list listing * Z * bool) :=
  let ack := findtext (sl_Ack root) "" in
  if negb (ack_accepted ack) then Raise (RuntimeError (map error_entry (sl_Errors root)))
  else
    items ← for_rows item_body (sl_Items root) [];
    total_pages ←
      match sl_PaginationResult root with
      | Some (Some t) => int_of_text t
      | _ => Ok 1
      end;
    let has_more :=
      match sl_HasMoreItems root with
      | Some (Some t) => String.eqb t "true"
      | _ => false
      end in
    Ok (items, total_pages, has_more).

Definition _fetch_listings_page (page : Z) : M (list listing * Z * bool) :=
  root ← request (EGetSellerList page) (fun tr => get_seller_list E tr page);
  lift (listings_page root).

(** The [while True] loop of [fetch_ebay_listings]. *)
Fixpoint fetch_loop (fuel : nat) (page : Z) (all_items : list listing) : M (list listing) :=
  match fuel with
  | O => out_of_fuel
  | S fuel' =>
      '(items, total_pages, has_more) ← _fetch_listings_page page;
      let all_items := all_items ++ items in
      if (total_pages <=? page) && negb has_more then mret all_items
      else
        let page := page + 1 in
        if 500 <? page then mret all_items
        else fetch_loop fuel' page all_items
  end.

Definition fetch_ebay_listings (fuel : nat) : M (list listing) :=
  fetch_loop fuel 1 [].

(** *** Batched updater *)

Definition _update_batch (batch : list update) : M Z :=
  root ← request (EReviseInventoryStatus batch)
           (fun tr => revise_inventory_status E tr batch);
  let ack := findtext (rv_Ack root) "" in
  if ack_accepted ack then mret (Z.of_nat (rv_InventoryStatus root))
  else mret 0.

(** The loop of [update_ebay_quantities] over [range(0, len(updates), 4)],
    carrying the two counters. *)
Fixpoint update_loop (starts : list nat) (updates : list update)
    (total_success total_failed : Z) : M (Z * Z) :=
  match starts with
  | [] => mret (total_success, total_failed)
  | i :: rest =>
      let batch := slice updates i batch_size in
      '(total_success, total_failed) ←
        try_except
          (success ← _update_batch batch;
           let total_success := total_success + success in
           let total_failed :=
             if success <? len batch
             then total_failed + (len batch - success) else total_failed in
           mret (total_success, total_failed))
          (fun e => mret (total_success, total_failed + len batch));
      update_loop rest updates total_success total_failed
  end.

Definition update_ebay_quantities (updates : list update) : M (Z * Z) :=
  update_loop (range0 (length updates) batch_size) updates 0 0.

(** *** Orchestrator *)

(** Step 3 of [run_sync]: the loop over the listings, carrying
    [updates_needed] and [unmatched_skus]. *)
Fixpoint diff_loop (supplier_stock : gmap string Z) (ebay_listings : list listing)
    (updates_needed : list update) (unmatched : list string)
    : list update * list string :=
  match ebay_listings with
  | [] => (updates_needed, unmatched)
  | l :: rest =>
      let sku := l_sku l in
      match supplier_stock !! sku with
      | None => diff_loop supplier_stock rest updates_needed (unmatched ++ [sku])
      | Some new_qty =>
          if negb (new_qty =? l_current_qty l)
          then diff_loop supplier_stock rest
                 (updates_needed ++ [mk_update (l_item_id l) sku (l_current_qty l) new_qty])
                 unmatched
          else diff_loop supplier_stock rest updates_needed unmatched
      end
  end.

Definition diff (supplier_stock : gmap string Z) (ebay_listings : list listing)
    : list update * list string :=
  diff_loop supplier_stock ebay_listings [] [].

(** [sum(1 for u in updates_needed if u["new_qty"] == 0)] *)
Fixpoint count_out_of_stock (updates_needed : list update) : Z :=
  match updates_needed with
  | [] => 0
  | u :: rest => (if u_new_qty u =? 0 then 1 else 0) + count_out_of_stock rest
  end.

Definition run_sync (fuel : nat) (feed_url feed_type : string)
    (column_mapping : option (gmap string string)) : M sync_result :=
  try_except
    (supplier_stock ← download_supplier_stock feed_url feed_type column_mapping;
     ebay_listings ← fetch_ebay_listings fuel;
     let '(updates_needed, unmatched) := diff supplier_stock ebay_listings in
     '(updated, failed) ←
       match updates_needed with
       | [] => mret (0, 0)
       | _ => update_ebay_quantities updates_needed
       end;
     mret {| status := "completed";
             total_listings_checked := len ebay_listings;
             items_updated := updated;
             items_failed := failed;
             items_out_of_stock := count_out_of_stock updates_needed;
             unmatched_skus := len unmatched;
             error_message := None |})
    (fun e =>
       mret {| status := "failed";
               total_listings_checked := 0;
               items_updated := 0;
               items_failed := 0;
               items_out_of_stock := 0;
               unmatched_skus := 0;
               error_message := Some (py_str e) |}).


(** ** Specification-side definitions *)

(** The update a listing calls for, its new quantity read from the stock
    map. *)
Definition update_for (supplier_stock : gmap string Z) (l : listing) : update :=
  {| u_item_id := l_item_id l;
     u_sku := l_sku l;
     u_old_qty := l_current_qty l;
     u_new_qty := default 0 (supplier_stock !! l_sku l) |}.

(** The listing's SKU is in the stock map, with a different quantity. *)
Definition stale (supplier_stock : gmap string Z) (l : listing) : bool :=
  match supplier_stock !! l_sku l with
  | Some q => negb (q =? l_current_qty l)
  | None => false
  end.

(** The listing's SKU is not in the stock map. *)
Definition unmatched_listing (supplier_stock : gmap string Z) (l : listing) : bool :=
  match supplier_stock !! l_sku l with
  | Some _ => false
  | None => true
  end.

(** The (code, message) pair of an [Errors] element: the long message,
    or the short one when the long one is missing or empty. *)
Definition error_pair (err : error_el) : string * string :=
  (findtext (ErrorCode err) "",
   match findtext (LongMessage err) "" with
   | EmptyString => findtext (ShortMessage err) ""
   | long => long
   end).

Definition is_RuntimeError (e : exn) : bool :=
  match e with
  | RuntimeError _ => true
  | _ => false
  end.

(** What one feed row contributes: nothing, or an entry of the map. *)
Definition put (entry : option (string * Z)) (stock : gmap string Z) : gmap string Z :=
  match entry with
  | Some (sku, v) => <[sku := v]> stock
  | None => stock
  end.

(** The loop body [body] treats the row [r] as [o] says: it raises, leaves
    the map alone, or writes one entry, whatever the map so far. *)
Definition writes (body : row -> gmap string Z -> result (gmap string Z))
    (r : row) (o : result (option (string * Z))) : Prop :=
  forall stock, body r stock = rbind o (fun entry => Ok (put entry stock)).

(** The trimmed SKU field of a row, read from column [col]. *)
Definition sku_field (col : string) (r : row) : result string :=
  val_strip (row_get r col "").

(** Each loop body raises, skips, or writes the entry of the row's SKU. *)
Definition entry_of (col : string) (r : row) (o : result (option (string * Z))) : Prop :=
  match o with
  | Ok (Some (sku, _)) => sku_field col r = Ok sku /\ sku <> ""
  | Ok None => sku_field col r = Ok ""
  | Raise _ => True
  end.

(** The feed formats the normaliser handles, each with its SKU column and
    its loop body. *)
Inductive feed_format :
    string -> option (gmap string string) -> string ->
    (row -> gmap string Z -> result (gmap string Z)) -> Prop :=
| fmt_azuregreen cm : feed_format "azuregreen" cm "NUMBER" azuregreen_body
| fmt_diecast cm : feed_format "diecast" cm "Product ID" diecast_body
| fmt_custom m :
    m <> ∅ ->
    feed_format "custom" (Some m) (mapping_get m "sku_column" "SKU") (custom_body m).

(** A custom row seen as an azuregreen row: the SKU column as [NUMBER],
    the quantity column as [UNITS], and no [CANTSELL]. *)
Definition as_azuregreen (sku_col qty_col : string) (r : row) : row :=
  let r1 : row :=
    match r !! qty_col with
    | Some v => {["UNITS" := v]}
    | None => ∅
    end in
  match r !! sku_col with
  | Some v => <["NUMBER" := v]> r1
  | None => r1
  end.

(** The quantity of a [UNITS] literal: its float value truncated towards
    zero; 0 when it is not a float literal, is NaN or is infinite. *)
Definition truncated_units (units : string) : Z :=
  match py_float units with
  | Some (S754_finite s m e) =>
      let n := if 0 <=? e then Z.pos m * 2 ^ e else Z.pos m / 2 ^ (- e) in
      if s then - n else n
  | _ => 0
  end.

(** The literal is read as an infinite float. *)
Definition infinite_units (units : string) : Prop :=
  exists s, py_float units = Some (S754_infinity s).

(** The GetSellerList requests for pages 1 to [n]. *)
Definition requests_upto (n : nat) : trace :=
  map (fun k => EGetSellerList (Z.of_nat k)) (seq 1 n).

(** What the [k]-th page gives in a fetch started at trace [tr]: the
    server's answer after the requests for pages 1 to [k-1], validated and
    read by [_fetch_listings_page]. *)
Definition page_result (tr : trace) (k : nat) : result (list listing * Z * bool) :=
  rbind (get_seller_list E (tr ++ requests_upto (k - 1)) (Z.of_nat k)) listings_page.

Definition page_items (tr : trace) (k : nat) : list listing :=
  match page_result tr k with
  | Ok (items, _, _) => items
  | Raise _ => []
  end.

(** Page [k] was read and is not the last one: it does not report both a
    page count reached and no more items. *)
Definition page_continues (tr : trace) (k : nat) : Prop :=
  exists items total_pages has_more,
    page_result tr k = Ok (items, total_pages, has_more)
    /\ ~ (total_pages <= Z.of_nat k /\ has_more = false).

(** The batches of the updater. *)
Definition batches (updates : list update) : list (list update) :=
  chunks 4 updates.

(** What one batch adds to (succeeded, failed), given the answer to its
    request: with an accepted acknowledgment, the number of result entries
    returned and the shortfall below the batch size; otherwise nothing and
    the whole batch. *)
Definition batch_counts (answer : result revise_root) (size : Z) : Z * Z :=
  match answer with
  | Ok root =>
      let ack := findtext (rv_Ack root) "" in
      let returned := Z.of_nat (rv_InventoryStatus root) in
      if decide (ack = "Success" \/ ack = "Warning")
      then (returned, Z.max 0 (size - returned))
      else (0, size)
  | Raise _ => (0, size)
  end.

(** The two counters over a list of batches sent one after the other from
    trace [tr]. *)
Fixpoint tally (tr : trace) (bs : list (list update)) : Z * Z :=
  match bs with
  | [] => (0, 0)
  | b :: rest =>
      let counts := batch_counts (revise_inventory_status E tr b) (len b) in
      let others := tally (tr ++ [EReviseInventoryStatus b]) rest in
      (counts.1 + others.1, counts.2 + others.2)
  end.

(** The result of a failed run. *)
Definition failed_result (message : string) : sync_result :=
  {| status := "failed";
     total_listings_checked := 0;
     items_updated := 0;
     items_failed := 0;
     items_out_of_stock := 0;
     unmatched_skus := 0;
     error_message := Some message |}.

(** The result of a completed run. *)
Definition completed_result (checked updated failed out_of_stock unmatched : Z)
    : sync_result :=
  {| status := "completed";
     total_listings_checked := checked;
     items_updated := updated;
     items_failed := failed;
     items_out_of_stock := out_of_stock;
     unmatched_skus := unmatched;
     error_message := None |}.

(** The feed type is none of the three the normaliser knows, or it is
    "custom" and the column mapping is missing or empty. *)
Definition unhandled_feed (feed_type : string) (cm : option (gmap string string)) : Prop :=
  (feed_type <> "azuregreen" /\ feed_type <> "diecast" /\ feed_type <> "custom")
  \/ (feed_type = "custom" /\ (cm = None \/ cm = Some ∅)).

(** The docstring of [download_supplier_stock]: quantities are 0 or 1. *)
Definition binary_stock (stock : gmap string Z) : Prop :=
  forall sku v, stock !! sku = Some v -> v = 0 \/ v = 1.

(** The keys of a stock map are non-empty and carry no surrounding
    whitespace. *)
Definition clean_keys (stock : gmap string Z) : Prop :=
  forall sku v, stock !! sku = Some v -> sku <> "" /\ strip sku = sku.

(** The tokens a diecast feed accepts for "visible". *)
Definition diecast_tokens : list string := ["yes"; "true"; "1"; "available"].

(** The listing [l] was built from the item element [item]: an active item
    with an id and a SKU, its available quantity the total less the sold,
    not below 0. *)
Definition listed_as (item : item_el) (l : listing) : Prop :=
  findtext (ListingStatus item) "" = "Active"
  /\ l_item_id l = findtext (ItemID item) "" /\ l_item_id l <> ""
  /\ l_sku l = strip (findtext (SKU item) "") /\ l_sku l <> ""
  /\ exists total sold,
       int_or_zero (Quantity item) = Ok total
       /\ int_or_zero (QuantitySold item) = Ok sold
       /\ l_current_qty l = Z.max 0 (total - sold).

(** The listing once its quantity has been set to the stock map's. *)
Definition settle (supplier_stock : gmap string Z) (l : listing) : listing :=
  match supplier_stock !! l_sku l with
  | Some q => {| l_item_id := l_item_id l; l_sku := l_sku l; l_current_qty := q |}
  | None => l
  end.

(** ** The diff step *)

Lemma diff_loop_spec supplier_stock ls us ms :
  diff_loop supplier_stock ls us ms =
    (us ++ map (update_for supplier_stock) (List.filter (stale supplier_stock) ls),
     ms ++ map l_sku (List.filter (unmatched_listing supplier_stock) ls)).
Proof.
  revert us ms.
  induction ls as [|l ls IH]; intros us ms; cbn [diff_loop List.filter map].
  - by rewrite !app_nil_r.
  - unfold stale at 1, unmatched_listing at 1.
    destruct (supplier_stock !! l_sku l) as [q|] eqn:Hq.
    + destruct (negb (q =? l_current_qty l)); rewrite IH; cbn [map].
      * unfold update_for at 2. rewrite Hq. cbn [default].
        by rewrite <- app_assoc.
      * done.
    + rewrite IH. cbn [map]. by rewrite <- app_assoc.
Qed.

(** C1. The diff step yields one update per listing whose SKU is in the
    stock map with a quantity different from the listing's, in listing
    order and with the new quantity read from the stock map; the listings
    whose SKU is absent yield no update and are each recorded once among
    the unmatched SKUs. *)
Theorem C1_diff_updates_and_unmatched (supplier_stock : gmap string Z) (ls : list listing) :
  (diff supplier_stock ls).1
    = map (update_for supplier_stock) (List.filter (stale supplier_stock) ls)
  /\ (diff supplier_stock ls).2
    = map l_sku (List.filter (unmatched_listing supplier_stock) ls)
  /\ (forall l, stale supplier_stock l = true <->
        exists q, supplier_stock !! l_sku l = Some q /\ q <> l_current_qty l)
  /\ (forall l, unmatched_listing supplier_stock l = true <->
        supplier_stock !! l_sku l = None)
  /\ (forall l, stale supplier_stock l = true ->
        supplier_stock !! l_sku l = Some (u_new_qty (update_for supplier_stock l))).
Proof.
  unfold diff. rewrite diff_loop_spec. cbn [fst snd app].
  split; [done|]. split; [done|]. split; [|split]; intros l.
  - unfold stale. destruct (supplier_stock !! l_sku l) as [q|]; split.
    + intros Hq. exists q. split; [done|].
      apply negb_true_iff in Hq. by apply Z.eqb_neq.
    + intros (q' & [= <-] & Hne).
      apply negb_true_iff. by apply Z.eqb_neq.
    + done.
    + by intros (q & ? & _).
  - unfold unmatched_listing. by destruct (supplier_stock !! l_sku l).
  - unfold stale, update_for. cbn.
    by destruct (supplier_stock !! l_sku l).
Qed.

(** ** The single-page fetch *)

Lemma rbind_Ok {A B} (r : result A) (k : A -> result B) (b : B) :
  rbind r k = Ok b -> exists a, r = Ok a /\ k a = Ok b.
Proof. destruct r as [a|e]; [eauto | done]. Qed.

Lemma rbind_Raise {A B} (r : result A) (k : A -> result B) (e : exn) :
  rbind r k = Raise e -> r = Raise e \/ exists a, r = Ok a /\ k a = Raise e.
Proof. destruct r as [a|e']; [eauto | intros [= ->]; by left]. Qed.

Lemma int_of_str_raises s e : int_of_str s = Raise e -> is_RuntimeError e = false.
Proof. unfold int_of_str. destruct (py_int s); [done | by intros [= <-]]. Qed.

Lemma int_or_zero_raises el e : int_or_zero el = Raise e -> is_RuntimeError e = false.
Proof.
  destruct el as [[s|]|]; cbn; [|done..].
  destruct (str_truthy s); [apply int_of_str_raises | done].
Qed.

Lemma item_body_raises item items e :
  item_body item items = Raise e -> is_RuntimeError e = false.
Proof.
  unfold item_body.
  destruct (negb _); [done|].
  intros [H|(qt & _ & H)]%rbind_Raise; [by eapply int_or_zero_raises|].
  apply rbind_Raise in H as [H|(qs & _ & H)]; [by eapply int_or_zero_raises|].
  by destruct (_ && _).
Qed.

Lemma for_rows_raises {X S} (body : X -> S -> result S) (P : exn -> Prop) xs s e :
  (forall x s e, body x s = Raise e -> P e) ->
  for_rows body xs s = Raise e -> P e.
Proof.
  intros Hbody. revert s.
  induction xs as [|x xs IH]; intros s; cbn [for_rows]; [done|].
  intros [H|(s' & _ & H)]%rbind_Raise; eauto.
Qed.

Lemma ack_accepted_spec ack :
  ack_accepted ack = true <-> ack = "Success" \/ ack = "Warning".
Proof.
  unfold ack_accepted, str_in. cbn [existsb].
  by rewrite orb_false_r, orb_true_iff, !String.eqb_eq.
Qed.

Lemma error_entry_pair err :
  error_entry err = "[" +:+ (error_pair err).1 +:+ "] " +:+ (error_pair err).2.
Proof.
  unfold error_entry, error_pair. cbn [fst snd].
  by destruct (findtext (LongMessage err) "").
Qed.

(** C8. The single-page fetch raises the protocol error exactly when the
    acknowledgment of the response is neither "Success" nor "Warning";
    the error then carries the (code, message) pairs of the response's
    error entries; on "Success" or "Warning" the items of the page are
    processed. *)
Theorem C8_protocol_error_iff_ack_rejected (root : seller_list_root) :
  let ack := findtext (sl_Ack root) "" in
  ((exists msgs, listings_page root = Raise (RuntimeError msgs))
     <-> ack <> "Success" /\ ack <> "Warning")
  /\ (ack <> "Success" /\ ack <> "Warning" ->
        listings_page root
        = Raise (RuntimeError
                   (map (fun err => "[" +:+ (error_pair err).1 +:+ "] " +:+ (error_pair err).2)
                      (sl_Errors root))))
  /\ (ack = "Success" \/ ack = "Warning" ->
        forall e, listings_page root = Raise e ->
          for_rows item_body (sl_Items root) [] = Raise e
          \/ exists t, sl_PaginationResult root = Some (Some t) /\ int_of_text t = Raise e)
  /\ (forall items total_pages has_more,
        listings_page root = Ok (items, total_pages, has_more) ->
        (ack = "Success" \/ ack = "Warning")
        /\ for_rows item_body (sl_Items root) [] = Ok items).
Proof.
  intros ack.
  assert (Hrej : ack <> "Success" /\ ack <> "Warning" ->
            listings_page root = Raise (RuntimeError (map error_entry (sl_Errors root)))).
  { intros [H1 H2]. unfold listings_page. fold ack.
    destruct (ack_accepted ack) eqn:Hacc; [|done].
    apply ack_accepted_spec in Hacc. by destruct Hacc. }
  assert (Hacc : ack = "Success" \/ ack = "Warning" ->
            listings_page root =
              items ← for_rows item_body (sl_Items root) [];
              total_pages ← match sl_PaginationResult root with
                            | Some (Some t) => int_of_text t
                            | _ => Ok 1
                            end;
              Ok (items, total_pages,
                  match sl_HasMoreItems root with
                  | Some (Some t) => String.eqb t "true"
                  | _ => false
                  end)).
  { intros H. apply ack_accepted_spec in H.
    unfold listings_page. fold ack. by rewrite H. }
  assert (Hdec : (ack = "Success" \/ ack = "Warning")
                 \/ (ack <> "Success" /\ ack <> "Warning")).
  { destruct (decide (ack = "Success")); [by left; left|].
    destruct (decide (ack = "Warning")); [by left; right | by right]. }
  split; [split|split; [|split]].
  - intros [msgs Hr]. destruct Hdec as [Ha|Hn]; [|done].
    rewrite (Hacc Ha) in Hr.
    apply rbind_Raise in Hr as [Hr|(items & _ & Hr)].
    + by apply (for_rows_raises _ (fun e => is_RuntimeError e = false))
        in Hr; [|apply item_body_raises].
    + apply rbind_Raise in Hr as [Hr|(tp & _ & Hr)]; [|done].
      destruct (sl_PaginationResult root) as [[[t|]|]|]; try done.
      by apply int_of_str_raises in Hr.
  - intros Hn. rewrite (Hrej Hn). eauto.
  - intros Hn. rewrite (Hrej Hn). do 2 f_equal.
    apply map_ext. intros err. apply error_entry_pair.
  - intros Ha e Hr. rewrite (Hacc Ha) in Hr.
    apply rbind_Raise in Hr as [Hr|(items & _ & Hr)]; [by left|].
    apply rbind_Raise in Hr as [Hr|(tp & _ & Hr)]; [|done].
    right. destruct (sl_PaginationResult root) as [[t|]|]; try done. eauto.
  - intros items tp hm Hr. destruct Hdec as [Ha|Hn].
    + split; [done|]. rewrite (Hacc Ha) in Hr.
      apply rbind_Ok in Hr as (items' & Hitems & Hr).
      apply rbind_Ok in Hr as (tp' & _ & Hr). by injection Hr as -> _ _.
    + by rewrite (Hrej Hn) in Hr.
Qed.

(** ** The feed normaliser *)

Lemma str_truthy_false s : str_truthy s = false <-> s = "".
Proof. by destruct s. Qed.

Lemma for_rows_app {X S} (body : X -> S -> result S) xs ys s :
  for_rows body (xs ++ ys) s = rbind (for_rows body xs s) (for_rows body ys).
Proof.
  revert s. induction xs as [|x xs IH]; intros s; cbn [for_rows app]; [done|].
  destruct (body x s) as [s'|e]; cbn; [apply IH | done].
Qed.

Lemma azuregreen_writes r :
  exists o, writes azuregreen_body r o /\ entry_of "NUMBER" r o.
Proof.
  unfold writes, entry_of, sku_field, azuregreen_body.
  destruct (val_strip (row_get r "NUMBER" "")) as [sku|e]; [|by exists (Raise e)].
  destruct (val_strip (row_get r "UNITS" "0")) as [qty_raw|e]; [|by exists (Raise e)].
  destruct (val_strip (row_get r "CANTSELL" "0")) as [cant|e]; [|by exists (Raise e)].
  cbn. destruct (str_truthy sku) eqn:Hsku; cbn.
  - destruct (parse_float_qty qty_raw) as [qty|e]; [|by exists (Raise e)].
    exists (Ok (Some (sku, binary (if String.eqb cant "1" then 0 else qty)))).
    split; [done|]. split; [done|]. intros ->. done.
  - apply str_truthy_false in Hsku as ->. by exists (Ok None).
Qed.

Lemma diecast_writes r :
  exists o, writes diecast_body r o /\ entry_of "Product ID" r o.
Proof.
  unfold writes, entry_of, sku_field, diecast_body.
  destruct (val_strip (row_get r "Product ID" "")) as [sku|e]; [|by exists (Raise e)].
  destruct (val_strip (row_get r "Product Visible" "0")) as [qty_raw|e];
    [|by exists (Raise e)].
  cbn. destruct (str_truthy sku) eqn:Hsku; cbn.
  - destruct (except_ValueError _ _) as [qty|e]; [|by exists (Raise e)].
    exists (Ok (Some (sku, binary qty))).
    split; [done|]. split; [done|]. intros ->. done.
  - apply str_truthy_false in Hsku as ->. by exists (Ok None).
Qed.

Lemma custom_writes m r :
  exists o, writes (custom_body m) r o /\ entry_of (mapping_get m "sku_column" "SKU") r o.
Proof.
  unfold writes, entry_of, sku_field, custom_body.
  destruct (val_strip (row_get r (mapping_get m "sku_column" "SKU") ""))
    as [sku|e]; [|by exists (Raise e)].
  destruct (val_strip (row_get r (mapping_get m "quantity_column" "Quantity") "0"))
    as [qty_raw|e]; [|by exists (Raise e)].
  cbn. destruct (str_truthy sku) eqn:Hsku; cbn.
  - destruct (parse_float_qty qty_raw) as [qty|e]; [|by exists (Raise e)].
    exists (Ok (Some (sku, binary qty))).
    split; [done|]. split; [done|]. intros ->. done.
  - apply str_truthy_false in Hsku as ->. by exists (Ok None).
Qed.

Lemma feed_format_writes ft cm col body r :
  feed_format ft cm col body -> exists o, writes body r o /\ entry_of col r o.
Proof.
  destruct 1; [apply azuregreen_writes | apply diecast_writes | apply custom_writes].
Qed.

Lemma feed_format_parse ft cm col body rows :
  feed_format ft cm col body -> parse_feed ft cm rows = for_rows body rows ∅.
Proof.
  destruct 1 as [cm|cm|m Hm]; unfold parse_feed; cbn; [done..|].
  by rewrite bool_decide_eq_false_2.
Qed.

Section Rows.

Variable body : row -> gmap string Z -> result (gmap string Z).
Variable col : string.
Hypothesis body_writes : forall r, exists o, writes body r o /\ entry_of col r o.

(** An entry of the result was in the map at the start or is the SKU of
    a row. *)
Lemma for_rows_dom rows st stock s :
  for_rows body rows st = Ok stock ->
  is_Some (stock !! s) ->
  is_Some (st !! s) \/ (s <> "" /\ exists r, r ∈ rows /\ sku_field col r = Ok s).
Proof.
  revert st. induction rows as [|r rows IH]; intros st; cbn [for_rows].
  - intros [= ->]. by left.
  - destruct (body_writes r) as (o & Hw & Ho). rewrite Hw.
    destruct o as [[[sku v]|]|e]; cbn; [| |done].
    + destruct Ho as [Hsku Hne]. intros Hrest Hs.
      destruct (IH _ Hrest Hs) as [Hin|(? & r' & ? & ?)].
      * destruct (decide (sku = s)) as [<-|Hdiff].
        -- right. split; [done|]. exists r. split; [left|done].
        -- left. by rewrite lookup_insert_ne in Hin.
      * right. split; [done|]. exists r'. split; [by right|done].
    + intros Hrest Hs.
      destruct (IH _ Hrest Hs) as [Hin|(? & r' & ? & ?)]; [by left|].
      right. split; [done|]. exists r'. split; [by right|done].
Qed.

(** Rows with another SKU leave the entry of [s] alone. *)
Lemma for_rows_other rows st stock s :
  (forall r, r ∈ rows -> sku_field col r <> Ok s) ->
  for_rows body rows st = Ok stock ->
  stock !! s = st !! s.
Proof.
  revert st. induction rows as [|r rows IH]; intros st Hrows; cbn [for_rows].
  - by intros [= ->].
  - destruct (body_writes r) as (o & Hw & Ho). rewrite Hw.
    assert (Hr : sku_field col r <> Ok s) by (apply Hrows; left).
    assert (Hrest : forall r', r' ∈ rows -> sku_field col r' <> Ok s)
      by (intros r' ?; apply Hrows; by right).
    destruct o as [[[sku v]|]|e]; cbn; [| |done].
    + destruct Ho as [Hsku _]. intros H. rewrite (IH _ Hrest H).
      apply lookup_insert_ne. intros ->. by rewrite Hsku in Hr.
    + intros H. by apply IH.
Qed.

(** The entry of a SKU is the one written by the last row with it. *)
Lemma for_rows_last rows1 r rows2 st stock s :
  for_rows body (rows1 ++ r :: rows2) st = Ok stock ->
  sku_field col r = Ok s -> s <> "" ->
  (forall r', r' ∈ rows2 -> sku_field col r' <> Ok s) ->
  exists v, (forall st', body r st' = Ok (<[s := v]> st')) /\ stock !! s = Some v.
Proof.
  intros Hrun Hs Hne Hrows2.
  rewrite for_rows_app in Hrun.
  apply rbind_Ok in Hrun as (st1 & _ & Hrun). cbn [for_rows] in Hrun.
  destruct (body_writes r) as (o & Hw & Ho). rewrite Hw in Hrun.
  destruct o as [[[sku v]|]|e]; cbn in Hrun; [| |done].
  - destruct Ho as [Hsku _]. rewrite Hs in Hsku. injection Hsku as <-.
    exists v. split; [intros st'; by rewrite Hw|].
    rewrite (for_rows_other _ _ _ _ Hrows2 Hrun).
    apply lookup_insert_eq.
  - cbn in Ho. rewrite Hs in Ho. by injection Ho as ->.
Qed.

(** Entries are never removed: the SKU of every row is in the result. *)
Lemma for_rows_dom_conv rows st stock s :
  for_rows body rows st = Ok stock ->
  is_Some (st !! s) \/ (s <> "" /\ exists r, r ∈ rows /\ sku_field col r = Ok s) ->
  is_Some (stock !! s).
Proof.
  revert st. induction rows as [|r rows IH]; intros st; cbn [for_rows].
  - intros [= ->] [?|(_ & r & Hr & _)]; [done|]. by apply elem_of_nil in Hr.
  - destruct (body_writes r) as (o & Hw & Ho). rewrite Hw.
    destruct o as [[[sku v]|]|e]; cbn; [| |done].
    + destruct Ho as [Hsku _]. intros Hrest Hs. apply (IH _ Hrest).
      destruct Hs as [Hin|(Hne & r' & [->|Hr']%elem_of_cons & Hs')].
      * left. destruct (decide (sku = s)) as [->|Hd].
        -- rewrite lookup_insert_eq. eauto.
        -- by rewrite lookup_insert_ne.
      * left. rewrite Hs' in Hsku. injection Hsku as ->.
        rewrite lookup_insert_eq. eauto.
      * right. eauto.
    + intros Hrest Hs. apply (IH _ Hrest).
      destruct Hs as [Hin|(Hne & r' & [->|Hr']%elem_of_cons & Hs')].
      * by left.
      * cbn in Ho. rewrite Hs' in Ho. by injection Ho as ->.
      * right. eauto.
Qed.

End Rows.

(** C6 (amended). For an azuregreen or diecast feed, and for a custom
    feed with a non-empty column mapping, whenever the normaliser returns
    a stock map: a row whose SKU trims to the empty string leaves the map
    as it is (or raises); every entry of the map has a non-empty key, the
    trimmed SKU of some row; and for every row that is the last one with
    its (non-empty, trimmed) SKU, the map holds the value written by that
    row. *)
Theorem C6_blank_sku_skipped_last_row_wins
    (ft : string) (cm : option (gmap string string)) (col : string)
    (body : row -> gmap string Z -> result (gmap string Z))
    (rows : list row) (stock : gmap string Z) :
  feed_format ft cm col body ->
  parse_feed ft cm rows = Ok stock ->
  (forall r st, sku_field col r = Ok "" ->
     body r st = Ok st \/ exists e, body r st = Raise e)
  /\ (forall s, is_Some (stock !! s) ->
     s <> "" /\ exists r, r ∈ rows /\ sku_field col r = Ok s)
  /\ (forall rows1 r rows2 s,
        rows = rows1 ++ r :: rows2 ->
        sku_field col r = Ok s -> s <> "" ->
        (forall r', r' ∈ rows2 -> sku_field col r' <> Ok s) ->
        exists v, (forall st, body r st = Ok (<[s := v]> st)) /\ stock !! s = Some v).
Proof.
  intros Hfmt Hparse.
  rewrite (feed_format_parse _ _ _ _ _ Hfmt) in Hparse.
  pose proof (fun r => feed_format_writes _ _ _ _ r Hfmt) as Hw.
  split; [|split].
  - intros r st Hblank. destruct (Hw r) as (o & Hbody & Ho). rewrite Hbody.
    destruct o as [[[sku v]|]|e]; cbn; [|by left|eauto].
    destruct Ho as [Hsku Hne]. rewrite Hblank in Hsku. by injection Hsku as <-.
  - intros s Hs.
    destruct (for_rows_dom body col Hw _ _ _ _ Hparse Hs) as [Hin|H]; [|done].
    rewrite lookup_empty in Hin. by destruct Hin.
  - intros rows1 r rows2 s -> Hsku Hne Hlast.
    by eapply for_rows_last.
Qed.

(** A feed type the normaliser does not know, and "custom" without a
    usable mapping, give the empty map. *)
Lemma parse_feed_unhandled ft cm rows :
  (ft <> "azuregreen" /\ ft <> "diecast" /\ ft <> "custom")
  \/ (ft = "custom" /\ mapping_truthy cm = false) ->
  parse_feed ft cm rows = Ok ∅.
Proof.
  unfold parse_feed.
  intros [(Ha & Hd & Hc)|[-> Hcm]].
  - apply String.eqb_neq in Ha, Hd, Hc. by rewrite Ha, Hd, Hc.
  - by rewrite Hcm.
Qed.

Lemma parse_float_qty_spec units :
  parse_float_qty units =
    match py_float units with
    | Some (S754_infinity _) => Raise OverflowError
    | _ => Ok (truncated_units units)
    end.
Proof.
  unfold parse_float_qty, truncated_units, float_of_str.
  destruct (py_float units) as [[s|s| |s m e]|]; cbn; try done.
  assert (Hshift : Z.shiftl (Z.pos m) e
                   = if 0 <=? e then Z.pos m * 2 ^ e else Z.pos m / 2 ^ (- e)).
  { destruct (Z.leb_spec 0 e).
    - by rewrite Z.shiftl_mul_pow2.
    - rewrite <- (Z.opp_involutive e) at 1.
      rewrite Z.shiftl_opp_r, Z.shiftr_div_pow2; [done | lia]. }
  by rewrite Hshift.
Qed.

(** What holds of C5: on a row with a non-empty SKU whose [UNITS] is not
    read as an infinite float, the availability is 1 exactly when the
    truncated quantity is positive and [CANTSELL] is not "1". *)
Lemma azuregreen_availability r stock sku units cant :
  sku_field "NUMBER" r = Ok sku -> sku <> "" ->
  val_strip (row_get r "UNITS" "0") = Ok units ->
  val_strip (row_get r "CANTSELL" "0") = Ok cant ->
  ~ infinite_units units ->
  exists v, azuregreen_body r stock = Ok (<[sku := v]> stock)
    /\ (v = 0 \/ v = 1)
    /\ (v = 1 <-> 0 < truncated_units units /\ cant <> "1").
Proof.
  unfold sku_field, azuregreen_body. intros -> Hsku -> -> Hfin. cbn.
  destruct (str_truthy sku) eqn:Hs; [|by apply str_truthy_false in Hs].
  cbn. rewrite parse_float_qty_spec.
  assert (Hqty : match py_float units with
                 | Some (S754_infinity _) => Raise OverflowError
                 | _ => Ok (truncated_units units)
                 end = Ok (truncated_units units)).
  { destruct (py_float units) as [[s|s| |s m e]|] eqn:Hf; try done.
    destruct Hfin. by exists s. }
  rewrite Hqty. cbn. eexists. split; [done|].
  unfold binary.
  destruct (String.eqb_spec cant "1") as [->|Hc].
  - cbn. split; [by left|]. split; [done | by intros [_ ?]].
  - destruct (Z.ltb_spec 0 (truncated_units units)).
    + split; [by right|]. done.
    + split; [by left|]. split; [done | lia].
Qed.

(** A [DISCONT] column has no effect on an azuregreen row. *)
Lemma azuregreen_ignores_DISCONT r v stock :
  azuregreen_body (<["DISCONT" := v]> r) stock = azuregreen_body r stock.
Proof.
  unfold azuregreen_body, row_get. by rewrite !lookup_insert_ne.
Qed.

(** C5. An azuregreen row with a non-empty SKU whose [UNITS] is read as an
    infinite float ("inf", "1e999") gets no availability: [int(float(qty_raw))]
    raises [OverflowError], which [except ValueError] does not catch, so the
    row raises, also when [CANTSELL] is "1", and the whole feed raises with
    it.  The rule of the specification (availability 0 under [CANTSELL],
    0 for a quantity that is not a number) is not what the code does here;
    on every other row it is ([azuregreen_availability]). *)
Theorem C5_infinite_units_raise (r : row) (sku units cant : string)
    (cm : option (gmap string string)) :
  sku_field "NUMBER" r = Ok sku -> sku <> "" ->
  val_strip (row_get r "UNITS" "0") = Ok units ->
  val_strip (row_get r "CANTSELL" "0") = Ok cant ->
  infinite_units units ->
  (forall stock, azuregreen_body r stock = Raise OverflowError)
  /\ parse_feed "azuregreen" cm [r] = Raise OverflowError.
Proof.
  unfold sku_field. intros Hn Hsku Hu Hc [s Hinf].
  assert (Hbody : forall stock, azuregreen_body r stock = Raise OverflowError).
  { intros stock. unfold azuregreen_body. rewrite Hn, Hu, Hc. cbn.
    destruct (str_truthy sku) eqn:Hs; [|by apply str_truthy_false in Hs].
    cbn. rewrite parse_float_qty_spec, Hinf. done. }
  split; [done|].
  unfold parse_feed. cbn. by rewrite Hbody.
Qed.

Lemma as_azuregreen_lookup sc qc (r : row) :
  as_azuregreen sc qc r !! "NUMBER" = r !! sc
  /\ as_azuregreen sc qc r !! "UNITS" = r !! qc
  /\ as_azuregreen sc qc r !! "CANTSELL" = None.
Proof.
  unfold as_azuregreen. destruct (r !! sc), (r !! qc); by simplify_map_eq.
Qed.

(** Custom rows are treated as azuregreen rows without [CANTSELL]. *)
Lemma custom_body_as_azuregreen m r stock :
  custom_body m r stock
  = azuregreen_body
      (as_azuregreen (mapping_get m "sku_column" "SKU")
         (mapping_get m "quantity_column" "Quantity") r) stock.
Proof.
  unfold custom_body, azuregreen_body, row_get.
  destruct (as_azuregreen_lookup (mapping_get m "sku_column" "SKU")
              (mapping_get m "quantity_column" "Quantity") r) as (-> & -> & ->).
  destruct (val_strip _) as [sku|e]; [|done].
  destruct (val_strip _) as [qty_raw|e]; [|done].
  cbn. destruct (str_truthy sku); [|done]. cbn.
  by destruct (parse_float_qty qty_raw).
Qed.

Lemma for_rows_map {X Y S} (f : X -> Y) (body : Y -> S -> result S)
    (body' : X -> S -> result S) xs s :
  (forall x s, body' x s = body (f x) s) ->
  for_rows body' xs s = for_rows body (map f xs) s.
Proof.
  intros Hbody. revert s.
  induction xs as [|x xs IH]; intros s; cbn [for_rows map]; [done|].
  rewrite Hbody. destruct (body (f x) s); cbn; [apply IH | done].
Qed.

(** C4 (amended). The defaults "SKU" and "Quantity" apply to a column
    mapping that is given and non-empty but leaves the column unmapped:
    the custom feed is then read like an azuregreen feed whose [NUMBER]
    and [UNITS] are those two columns and which has no [CANTSELL], and a
    row with a non-blank "SKU" makes the returned map non-empty.  With the
    mapping absent or empty the normaliser returns the empty map. *)
Theorem C4_custom_defaults_need_a_mapping :
  (forall cm rows, mapping_truthy cm = false -> parse_feed "custom" cm rows = Ok ∅)
  /\ (forall m rows,
        m <> ∅ -> m !! "sku_column" = None -> m !! "quantity_column" = None ->
        parse_feed "custom" (Some m) rows
        = parse_feed "azuregreen" None (map (as_azuregreen "SKU" "Quantity") rows))
  /\ (forall m rows stock r s,
        m <> ∅ -> m !! "sku_column" = None ->
        parse_feed "custom" (Some m) rows = Ok stock ->
        r ∈ rows -> sku_field "SKU" r = Ok s -> s <> "" ->
        is_Some (stock !! s)).
Proof.
  split; [|split].
  - intros cm rows Hcm. apply parse_feed_unhandled. by right.
  - intros m rows Hm Hs Hq.
    rewrite (feed_format_parse _ _ _ _ _ (fmt_custom m Hm)).
    rewrite (feed_format_parse _ _ _ _ _ (fmt_azuregreen None)).
    apply for_rows_map. intros r stock.
    rewrite custom_body_as_azuregreen. unfold mapping_get. by rewrite Hs, Hq.
  - intros m rows stock r s Hm Hs Hparse Hr Hsku Hne.
    pose proof (fmt_custom m Hm) as Hfmt.
    rewrite (feed_format_parse _ _ _ _ _ Hfmt) in Hparse.
    unfold mapping_get in Hfmt, Hparse. rewrite Hs in Hfmt.
    eapply (for_rows_dom_conv _ "SKU"); try done.
    + intros r'. by eapply feed_format_writes.
    + right. eauto.
Qed.

(** ** The listing fetcher *)

Lemma requests_upto_S n :
  requests_upto (S n) = requests_upto n ++ [EGetSellerList (Z.of_nat (S n))].
Proof. unfold requests_upto. by rewrite seq_S, map_app. Qed.

Lemma fetch_page_run (k : nat) (tr : trace) :
  (1 <= k)%nat ->
  _fetch_listings_page (Z.of_nat k) (tr ++ requests_upto (k - 1))
  = Some (page_result tr k, tr ++ requests_upto k).
Proof.
  intros Hk. destruct k as [|k]; [lia|]. unfold page_result.
  replace (S k - 1)%nat with k by lia.
  rewrite requests_upto_S, app_assoc.
  unfold _fetch_listings_page, request, lift.
  unfold mbind, M_bind, bind.
  by destruct (get_seller_list E _ _).
Qed.

Lemma fetch_loop_step fuel page acc tr0 r tr1 :
  _fetch_listings_page page tr0 = Some (r, tr1) ->
  fetch_loop (S fuel) page acc tr0 =
    match r with
    | Raise e => Some (Raise e, tr1)
    | Ok (items, total_pages, has_more) =>
        if (total_pages <=? page) && negb has_more then Some (Ok (acc ++ items), tr1)
        else if 500 <? page + 1 then Some (Ok (acc ++ items), tr1)
        else fetch_loop fuel (page + 1) (acc ++ items) tr1
    end.
Proof.
  intros Hpage. cbn [fetch_loop]. unfold mbind, M_bind, bind. rewrite Hpage.
  destruct r as [[[items tp] hm]|e]; [|done].
  destruct (_ && _); [done|]. by destruct (500 <? page + 1).
Qed.

(** The loop from page [p] on, with [d] pages left below the ceiling. *)
Lemma fetch_loop_spec (tr : trace) (d : nat) :
  forall (p fuel : nat) (acc : list listing),
    (1 <= p)%nat -> (p + d = 500)%nat -> (d < fuel)%nat ->
    exists n, (p <= n <= 500)%nat
      /\ (forall k, (p <= k < n)%nat -> page_continues tr k)
      /\ ((exists e, page_result tr n = Raise e
             /\ fetch_loop fuel (Z.of_nat p) acc (tr ++ requests_upto (p - 1))
                = Some (Raise e, tr ++ requests_upto n))
          \/ (exists items total_pages has_more,
                page_result tr n = Ok (items, total_pages, has_more)
                /\ ((total_pages <= Z.of_nat n /\ has_more = false) \/ n = 500%nat)
                /\ fetch_loop fuel (Z.of_nat p) acc (tr ++ requests_upto (p - 1))
                   = Some (Ok (acc ++ concat (map (page_items tr) (seq p (S n - p)))),
                           tr ++ requests_upto n))).
Proof.
  induction d as [|d IH]; intros p fuel acc Hp Hd Hfuel;
    (destruct fuel as [|fuel]; [lia|]);
    rewrite (fetch_loop_step _ _ _ _ _ _ (fetch_page_run p tr Hp));
    destruct (page_result tr p) as [[[items tp] hm]|e] eqn:Hpage.
  - (* page 500 read *)
    exists p. split; [lia|]. split; [intros k; lia|]. right.
    exists items, tp, hm. split; [done|]. split; [right; lia|].
    replace (S p - p)%nat with 1%nat by lia. cbn [seq map concat].
    unfold page_items. rewrite Hpage, app_nil_r.
    destruct ((tp <=? Z.of_nat p) && negb hm); [done|].
    by replace (500 <? Z.of_nat p + 1) with true by (symmetry; apply Z.ltb_lt; lia).
  - exists p. split; [lia|]. split; [intros k; lia|]. left. eauto.
  - destruct ((tp <=? Z.of_nat p) && negb hm) eqn:Hstop.
    + (* the last page *)
      exists p. split; [lia|]. split; [intros k; lia|]. right.
      exists items, tp, hm. split; [done|].
      apply andb_true_iff in Hstop as [Htp Hhm].
      apply Z.leb_le in Htp. apply negb_true_iff in Hhm.
      split; [by left|].
      replace (S p - p)%nat with 1%nat by lia. cbn [seq map concat].
      unfold page_items. by rewrite Hpage, app_nil_r.
    + (* on to page p + 1 *)
      replace (500 <? Z.of_nat p + 1) with false by (symmetry; apply Z.ltb_ge; lia).
      replace (Z.of_nat p + 1) with (Z.of_nat (S p)) by lia.
      destruct (IH (S p) fuel (acc ++ items)) as (n & Hn & Hbefore & Hend);
        [lia..|].
      replace (S p - 1)%nat with p in Hend by lia.
      exists n. split; [lia|]. split.
      * intros k Hk. destruct (decide (k = p)) as [->|Hne].
        -- exists items, tp, hm. split; [done|].
           intros [Htp ->]. apply Z.leb_le in Htp. by rewrite Htp in Hstop.
        -- apply Hbefore. lia.
      * destruct Hend as [Hend|(items' & tp' & hm' & Hpage' & Hlast & Hrun)];
          [by left|].
        right. exists items', tp', hm'. split; [done|]. split; [done|].
        rewrite Hrun. do 2 f_equal.
        replace (S n - p)%nat with (S (S n - S p)) by lia. cbn [seq map concat].
        unfold page_items at 2. by rewrite Hpage, app_assoc.
  - exists p. split; [lia|]. split; [intros k; lia|]. left. eauto.
Qed.

(** With fuel for the ceiling the fetch answers, having made only page
    requests. *)
Lemma fetch_ebay_listings_answers (fuel : nat) (tr : trace) :
  (500 <= fuel)%nat ->
  exists r n, fetch_ebay_listings fuel tr = Some (r, tr ++ requests_upto n).
Proof.
  intros Hfuel. unfold fetch_ebay_listings.
  destruct (fetch_loop_spec tr 499 1 fuel [] ltac:(lia) ltac:(lia) ltac:(lia))
    as (n & _ & _ & [(e & _ & Hrun)|(? & ? & ? & _ & _ & Hrun)]);
    cbn [Nat.sub requests_upto seq map] in Hrun; rewrite app_nil_r in Hrun;
    change (Z.of_nat 1) with 1 in Hrun; rewrite Hrun; eauto.
Qed.

(** C7. The listing-fetch loop terminates on every server: with fuel for
    500 iterations it answers.  It requests pages 1 to [n] for some [n] of
    at most 500, where every page before [n] was read and was not the
    last; at page [n] either the page fetch raises, and the loop raises
    with it, or the page is read and then the page count is reached with
    no more items, or [n] is the 500-page ceiling; in both of these cases
    the listings of pages 1 to [n] are returned. *)
Theorem C7_fetch_terminates_within_500_pages (fuel : nat) (tr : trace) :
  (500 <= fuel)%nat ->
  exists n, (1 <= n <= 500)%nat
    /\ (forall k, (1 <= k < n)%nat -> page_continues tr k)
    /\ ((exists e, page_result tr n = Raise e
           /\ fetch_ebay_listings fuel tr = Some (Raise e, tr ++ requests_upto n))
        \/ (exists items total_pages has_more,
              page_result tr n = Ok (items, total_pages, has_more)
              /\ ((total_pages <= Z.of_nat n /\ has_more = false) \/ n = 500%nat)
              /\ fetch_ebay_listings fuel tr
                 = Some (Ok (concat (map (page_items tr) (seq 1 n))),
                         tr ++ requests_upto n))).
Proof.
  intros Hfuel. unfold fetch_ebay_listings.
  destruct (fetch_loop_spec tr 499 1 fuel [] ltac:(lia) ltac:(lia) ltac:(lia))
    as (n & Hn & Hbefore & Hend).
  cbn [Nat.sub requests_upto seq map] in Hend. rewrite app_nil_r in Hend.
  rewrite Nat.sub_0_r in Hend. change (Z.of_nat 1) with 1 in Hend.
  exists n. split; [done|]. split; [done|]. exact Hend.
Qed.

(** ** The batched updater *)

Lemma range0_step n :
  (0 < n)%nat -> range0 n 4 = 0%nat :: map (fun i => (i + 4)%nat) (range0 (n - 4) 4).
Proof.
  intros Hn. unfold range0.
  replace ((n + 4 - 1) / 4)%nat with (S ((n - 4 + 4 - 1) / 4)).
  - cbn [seq map]. f_equal. rewrite <- seq_shift, !map_map.
    apply map_ext. intros k. lia.
  - destruct (decide (n < 4)%nat).
    + replace (n - 4 + 4 - 1)%nat with 3%nat by lia.
      assert (n = 1 \/ n = 2 \/ n = 3)%nat as [->|[->| ->]] by lia; done.
    + replace (n + 4 - 1)%nat with ((n - 4 + 4 - 1) + 1 * 4)%nat by lia.
      rewrite Nat.div_add by lia. lia.
Qed.

Lemma slices_chunks {A} (fuel : nat) (xs : list A) :
  (length xs <= fuel)%nat ->
  map (fun i => slice xs i 4) (range0 (length xs) 4) = chunks_aux fuel 4 xs.
Proof.
  revert xs. induction fuel as [|fuel IH]; intros xs Hlen.
  - by destruct xs; [|cbn in Hlen; lia].
  - destruct xs as [|x xs]; [done|].
    rewrite range0_step by (cbn; lia).
    cbn [map chunks_aux]. f_equal.
    rewrite map_map, <- (length_drop (x :: xs) 4), <- IH
      by (rewrite length_drop; cbn in *; lia).
    apply map_ext. intros i. unfold slice.
    by rewrite drop_drop, (Nat.add_comm 4 i).
Qed.

Lemma chunks_aux_concat {A} (fuel : nat) (xs : list A) :
  (length xs <= fuel)%nat -> concat (chunks_aux fuel 4 xs) = xs.
Proof.
  revert xs. induction fuel as [|fuel IH]; intros xs Hlen.
  - by destruct xs; [|cbn in Hlen; lia].
  - destruct xs as [|x xs]; [done|].
    cbn [chunks_aux concat].
    rewrite IH by (rewrite length_drop; cbn in *; lia).
    apply take_drop.
Qed.

Lemma chunks_aux_sizes {A} (fuel : nat) (xs : list A) :
  Forall (fun b => (1 <= length b <= 4)%nat) (chunks_aux fuel 4 xs).
Proof.
  revert xs. induction fuel as [|fuel IH]; intros xs; [constructor|].
  destruct xs as [|x xs]; [constructor|].
  cbn [chunks_aux]. constructor; [|apply IH].
  rewrite length_take. cbn [length]. lia.
Qed.

Lemma chunks_aux_full {A} (fuel : nat) (xs : list A) bs1 b bs2 :
  chunks_aux fuel 4 xs = bs1 ++ b :: bs2 -> bs2 <> [] -> length b = 4%nat.
Proof.
  revert xs bs1. induction fuel as [|fuel IH]; intros xs bs1; cbn [chunks_aux].
  - by destruct bs1.
  - destruct xs as [|x xs]; [by destruct bs1|].
    destruct bs1 as [|b1 bs1]; cbn [app].
    + intros [= <- <-] Hrest. cbn [length]. rewrite length_take.
      destruct fuel as [|fuel']; [done|]. cbn [chunks_aux] in Hrest.
      destruct (drop 3 xs) as [|y ys] eqn:Hdrop; [done|].
      apply (f_equal length) in Hdrop. rewrite length_drop in Hdrop.
      cbn [length] in *. lia.
    + intros [= _ Hrest]. by eapply IH.
Qed.

Lemma update_batch_run (batch : list update) (tr : trace) :
  _update_batch batch tr
  = Some (match revise_inventory_status E tr batch with
          | Ok root =>
              Ok (if ack_accepted (findtext (rv_Ack root) "")
                  then Z.of_nat (rv_InventoryStatus root) else 0)
          | Raise e => Raise e
          end, tr ++ [EReviseInventoryStatus batch]).
Proof.
  unfold _update_batch, request, mbind, M_bind, bind.
  destruct (revise_inventory_status E tr batch) as [root|e]; [|done].
  by destruct (ack_accepted _).
Qed.

Ltac counters_eq :=
  apply (f_equal Some), (f_equal2 pair); [|done];
  apply (f_equal Ok), (f_equal2 pair); lia.

Lemma update_loop_step i rest updates total_success total_failed tr :
  update_loop (i :: rest) updates total_success total_failed tr =
    let batch := slice updates i batch_size in
    let tr' := tr ++ [EReviseInventoryStatus batch] in
    match revise_inventory_status E tr batch with
    | Ok root =>
        let success :=
          if ack_accepted (findtext (rv_Ack root) "")
          then Z.of_nat (rv_InventoryStatus root) else 0 in
        update_loop rest updates (total_success + success)
          (if success <? len batch
           then total_failed + (len batch - success) else total_failed) tr'
    | Raise e => update_loop rest updates total_success (total_failed + len batch) tr'
    end.
Proof.
  cbn [update_loop]. unfold mbind, M_bind, bind, try_except.
  rewrite update_batch_run.
  by destruct (revise_inventory_status E tr _).
Qed.

Lemma update_loop_tally (updates : list update) (starts : list nat) :
  forall (total_success total_failed : Z) (tr : trace),
    let bs := map (fun i => slice updates i batch_size) starts in
    update_loop starts updates total_success total_failed tr
    = Some (Ok (total_success + (tally tr bs).1, total_failed + (tally tr bs).2),
            tr ++ map EReviseInventoryStatus bs).
Proof.
  induction starts as [|i starts IH]; intros ts tf tr bs.
  - cbn. by rewrite !Z.add_0_r, app_nil_r.
  - subst bs. rewrite update_loop_step. cbn [map tally].
    set (b := slice updates i batch_size).
    cbn zeta. unfold batch_counts.
    destruct (revise_inventory_status E tr b) as [root|e]; rewrite IH;
      rewrite <- app_assoc; cbn [app];
      destruct (tally _ _) as [s' f']; cbn [fst snd].
    + destruct (ack_accepted _) eqn:Hack.
      * apply ack_accepted_spec in Hack. rewrite decide_True by done.
        cbn [fst snd]. unfold len.
        destruct (Z.ltb_spec (Z.of_nat (rv_InventoryStatus root)) (Z.of_nat (length b)));
          counters_eq.
      * rewrite decide_False
          by (intros Hacc; apply ack_accepted_spec in Hacc; congruence).
        cbn [fst snd]. unfold len.
        destruct (Z.ltb_spec 0 (Z.of_nat (length b))); counters_eq.
    + counters_eq.
Qed.

Lemma update_ebay_quantities_run (updates : list update) (tr : trace) :
  update_ebay_quantities updates tr
  = Some (Ok (tally tr (batches updates)),
          tr ++ map EReviseInventoryStatus (batches updates)).
Proof.
  unfold update_ebay_quantities. rewrite update_loop_tally.
  unfold batch_size, batches, chunks.
  rewrite (slices_chunks (length updates)) by done.
  by destruct (tally tr _).
Qed.

(** C3. The updater sends the updates in consecutive batches of at most
    4 (all full but the last), one request per batch and in order; the
    counters it returns are the sums over the batches of: the number of
    result entries returned and the shortfall below the batch size, for a
    batch whose acknowledgment is accepted; nothing and the whole batch
    size, for a batch whose request raises or is not accepted.  No batch
    stops the later ones.  With 9 updates the batch sizes are 4, 4 and 1,
    and when the middle request raises, that batch adds exactly 4 to
    failed and the third batch is still sent. *)
Theorem C3_batches_counted_independently (updates : list update) (tr : trace) :
  concat (batches updates) = updates
  /\ Forall (fun b => (1 <= length b <= 4)%nat) (batches updates)
  /\ (forall bs1 b bs2, batches updates = bs1 ++ b :: bs2 -> bs2 <> [] ->
        length b = 4%nat)
  /\ update_ebay_quantities updates tr
     = Some (Ok (tally tr (batches updates)),
             tr ++ map EReviseInventoryStatus (batches updates))
  /\ (length updates = 9%nat ->
      exists b1 b2 b3,
        batches updates = [b1; b2; b3]
        /\ map length [b1; b2; b3] = [4; 4; 1]%nat
        /\ forall e,
             revise_inventory_status E (tr ++ [EReviseInventoryStatus b1]) b2 = Raise e ->
             let first := batch_counts (revise_inventory_status E tr b1) 4 in
             let third :=
               batch_counts
                 (revise_inventory_status E
                    (tr ++ [EReviseInventoryStatus b1; EReviseInventoryStatus b2]) b3) 1 in
             update_ebay_quantities updates tr
             = Some (Ok (first.1 + third.1, first.2 + 4 + third.2),
                     tr ++ [EReviseInventoryStatus b1; EReviseInventoryStatus b2;
                            EReviseInventoryStatus b3])).
Proof.
  split; [by apply chunks_aux_concat|].
  split; [apply chunks_aux_sizes|].
  split; [apply chunks_aux_full|].
  split; [apply update_ebay_quantities_run|].
  intros Hlen. rewrite update_ebay_quantities_run.
  destruct updates
    as [|u1 [|u2 [|u3 [|u4 [|u5 [|u6 [|u7 [|u8 [|u9 [|u10 rest]]]]]]]]]]; try done.
  change (batches [u1; u2; u3; u4; u5; u6; u7; u8; u9])
    with [[u1; u2; u3; u4]; [u5; u6; u7; u8]; [u9]].
  eexists _, _, _. split; [reflexivity|]. split; [done|].
  intros e He. cbn [tally map]. rewrite He.
  rewrite <- app_assoc. cbn [app batch_counts fst snd].
  destruct (batch_counts _ _) as [s1 f1], (batch_counts _ _) as [s3 f3].
  cbn [fst snd]. unfold len. cbn [length]. counters_eq.
Qed.

(** ** The orchestrator *)

Lemma download_run feed_url feed_type cm tr :
  download_supplier_stock feed_url feed_type cm tr
  = Some (rbind (http_get E tr feed_url) (parse_feed feed_type cm),
          tr ++ [EGetFeed feed_url]).
Proof.
  unfold download_supplier_stock, request, lift, mbind, M_bind, bind.
  by destruct (http_get E tr feed_url).
Qed.

Lemma count_out_of_stock_filter us :
  count_out_of_stock us = len (List.filter (fun u => u_new_qty u =? 0) us).
Proof.
  unfold len. induction us as [|u us IH]; cbn [count_out_of_stock List.filter]; [done|].
  rewrite IH. destruct (u_new_qty u =? 0); cbn [length]; lia.
Qed.

(** The run, step by step. *)
Lemma run_sync_run fuel feed_url feed_type cm tr :
  run_sync fuel feed_url feed_type cm tr =
    match download_supplier_stock feed_url feed_type cm tr with
    | Some (Ok supplier_stock, tr1) =>
        match fetch_ebay_listings fuel tr1 with
        | Some (Ok ebay_listings, tr2) =>
            let updates_needed := (diff supplier_stock ebay_listings).1 in
            let unmatched := (diff supplier_stock ebay_listings).2 in
            match update_ebay_quantities updates_needed tr2 with
            | Some (Ok (updated, failed), tr3) =>
                Some (Ok (completed_result (len ebay_listings) updated failed
                            (count_out_of_stock updates_needed) (len unmatched)), tr3)
            | Some (Raise e, tr3) => Some (Ok (failed_result (py_str e)), tr3)
            | None => None
            end
        | Some (Raise e, tr2) => Some (Ok (failed_result (py_str e)), tr2)
        | None => None
        end
    | Some (Raise e, tr1) => Some (Ok (failed_result (py_str e)), tr1)
    | None => None
    end.
Proof.
  unfold run_sync, try_except, mbind, M_bind, bind.
  destruct (download_supplier_stock _ _ _ tr) as [[[stock|e] tr1]|]; [|done..].
  destruct (fetch_ebay_listings fuel tr1) as [[[ls|e] tr2]|]; [|done..].
  cbn zeta. destruct (diff stock ls) as [us ms] eqn:Hdiff. cbn [fst snd].
  destruct us as [|u us].
  - rewrite update_ebay_quantities_run. cbn. by rewrite app_nil_r.
  - destruct (update_ebay_quantities (u :: us) tr2) as [[[[updated failed]|e] tr3]|];
      done.
Qed.

(** C2. [run_sync] lets no exception out: it returns a result on every
    input and every server.  When the normaliser raises, and when the
    fetcher raises, the result is "failed" with the five counts at 0 and
    the message of that error, and no update request has been sent. *)
Theorem C2_run_sync_catches_every_error
    (fuel : nat) (feed_url feed_type : string) (cm : option (gmap string string))
    (tr : trace) :
  (500 <= fuel)%nat ->
  (exists r tr', run_sync fuel feed_url feed_type cm tr = Some (Ok r, tr'))
  /\ (forall e tr1,
        download_supplier_stock feed_url feed_type cm tr = Some (Raise e, tr1) ->
        run_sync fuel feed_url feed_type cm tr
        = Some (Ok (failed_result (py_str e)), tr1))
  /\ (forall supplier_stock tr1 e tr2,
        download_supplier_stock feed_url feed_type cm tr = Some (Ok supplier_stock, tr1) ->
        fetch_ebay_listings fuel tr1 = Some (Raise e, tr2) ->
        run_sync fuel feed_url feed_type cm tr
        = Some (Ok (failed_result (py_str e)), tr2)
        /\ exists n, tr2 = tr ++ EGetFeed feed_url :: requests_upto n).
Proof.
  intros Hfuel. rewrite run_sync_run. split; [|split].
  - rewrite download_run.
    destruct (rbind _ _) as [stock|e]; [|eauto].
    destruct (fetch_ebay_listings_answers fuel (tr ++ [EGetFeed feed_url]) Hfuel)
      as ([ls|e] & n & ->); [|eauto].
    cbn zeta. rewrite update_ebay_quantities_run.
    destruct (tally _ _). eauto.
  - by intros e tr1 ->.
  - intros stock tr1 e tr2 Hdl Hfetch. rewrite Hdl, Hfetch. split; [done|].
    rewrite download_run in Hdl. injection Hdl as _ <-.
    destruct (fetch_ebay_listings_answers fuel (tr ++ [EGetFeed feed_url]) Hfuel)
      as (r & n & Hrun).
    rewrite Hrun in Hfetch. injection Hfetch as _ <-.
    exists n. by rewrite <- app_assoc.
Qed.

(** C9. On a run whose normaliser and fetcher both return, the result is
    "completed": the listings checked are the fetched listings, the
    updated and failed counts are the two counters of the updater run on
    the updates of the diff step, the out-of-stock count is the number of
    those updates with new quantity 0, the unmatched count is that of the
    diff step, and there is no error message. *)
Theorem C9_completed_result_counts
    (fuel : nat) (feed_url feed_type : string) (cm : option (gmap string string))
    (tr tr1 tr2 : trace) (supplier_stock : gmap string Z) (ebay_listings : list listing) :
  download_supplier_stock feed_url feed_type cm tr = Some (Ok supplier_stock, tr1) ->
  fetch_ebay_listings fuel tr1 = Some (Ok ebay_listings, tr2) ->
  let updates_needed := (diff supplier_stock ebay_listings).1 in
  let unmatched := (diff supplier_stock ebay_listings).2 in
  exists updated failed tr3,
    update_ebay_quantities updates_needed tr2 = Some (Ok (updated, failed), tr3)
    /\ run_sync fuel feed_url feed_type cm tr
       = Some (Ok {| status := "completed";
                     total_listings_checked := len ebay_listings;
                     items_updated := updated;
                     items_failed := failed;
                     items_out_of_stock :=
                       len (List.filter (fun u => u_new_qty u =? 0) updates_needed);
                     unmatched_skus := len unmatched;
                     error_message := None |}, tr3).
Proof.
  intros Hdl Hfetch us ms. rewrite run_sync_run, Hdl, Hfetch. cbn zeta.
  fold us ms. rewrite update_ebay_quantities_run.
  destruct (tally tr2 (batches us)) as [updated failed].
  exists updated, failed, (tr2 ++ map EReviseInventoryStatus (batches us)).
  split; [done|]. by rewrite count_out_of_stock_filter.
Qed.

Lemma diff_empty_stock ls : diff ∅ ls = ([], map l_sku ls).
Proof.
  unfold diff. rewrite diff_loop_spec. cbn [app]. f_equal.
  - induction ls as [|l ls IH]; [done|]. cbn [List.filter].
    unfold stale at 1. by rewrite lookup_empty.
  - f_equal. induction ls as [|l ls IH]; [done|]. cbn [List.filter].
    unfold unmatched_listing at 1. rewrite lookup_empty. by rewrite IH.
Qed.

(** C10. With a feed type other than "azuregreen", "diecast" and
    "custom", and with "custom" when the column mapping is missing or
    empty, the normaliser returns the empty stock map and raises nothing
    once the download has succeeded; a run whose listing fetch then
    succeeds is "completed", sends no update, and counts every fetched
    listing as an unmatched SKU. *)
Theorem C10_unhandled_feed_type_completes
    (feed_type : string) (cm : option (gmap string string)) :
  unhandled_feed feed_type cm ->
  (forall feed_url tr rows,
     http_get E tr feed_url = Ok rows ->
     download_supplier_stock feed_url feed_type cm tr
     = Some (Ok ∅, tr ++ [EGetFeed feed_url]))
  /\ (forall fuel feed_url tr rows ebay_listings tr2,
        http_get E tr feed_url = Ok rows ->
        fetch_ebay_listings fuel (tr ++ [EGetFeed feed_url]) = Some (Ok ebay_listings, tr2) ->
        run_sync fuel feed_url feed_type cm tr
        = Some (Ok {| status := "completed";
                      total_listings_checked := len ebay_listings;
                      items_updated := 0;
                      items_failed := 0;
                      items_out_of_stock := 0;
                      unmatched_skus := len ebay_listings;
                      error_message := None |}, tr2)).
Proof.
  intros Hft.
  assert (Hparse : forall rows, parse_feed feed_type cm rows = Ok ∅).
  { intros rows. apply parse_feed_unhandled.
    destruct Hft as [?|[-> [->| ->]]]; [by left|right..]; done. }
  assert (Hdl : forall feed_url tr rows,
            http_get E tr feed_url = Ok rows ->
            download_supplier_stock feed_url feed_type cm tr
            = Some (Ok ∅, tr ++ [EGetFeed feed_url])).
  { intros feed_url tr rows Hget. rewrite download_run, Hget. cbn. by rewrite Hparse. }
  split; [done|].
  intros fuel feed_url tr rows ls tr2 Hget Hfetch.
  rewrite run_sync_run, (Hdl _ _ _ Hget), Hfetch. cbn zeta.
  rewrite diff_empty_stock. cbn [fst snd].
  rewrite update_ebay_quantities_run. cbn. rewrite app_nil_r.
  unfold completed_result, len. by rewrite length_map.
Qed.

(** ** Further properties of the normaliser *)

Lemma rstrip_idem s : rstrip (rstrip s) = rstrip s.
Proof.
  induction s as [|c s IH]; [done|]. cbn [rstrip].
  destruct (rstrip s) as [|d r] eqn:Hr.
  - destruct (py_isspace c) eqn:Hc; [done|]. cbn [rstrip]. by rewrite Hc.
  - cbn [rstrip]. cbn [rstrip] in IH. by rewrite IH.
Qed.

Lemma lstrip_idem s : lstrip (lstrip s) = lstrip s.
Proof.
  induction s as [|c s IH]; [done|]. cbn [lstrip].
  destruct (py_isspace c) eqn:Hc; [done|]. cbn [lstrip]. by rewrite Hc.
Qed.

Lemma lstrip_rstrip t : lstrip t = t -> lstrip (rstrip t) = rstrip t.
Proof.
  destruct t as [|c t]; [done|]. cbn [lstrip].
  destruct (py_isspace c) eqn:Hc.
  - intros Ht. apply (f_equal String.length) in Ht.
    assert (Hle : forall u, (String.length (lstrip u) <= String.length u)%nat).
    { induction u as [|d u IHu]; [done|]. cbn [lstrip].
      destruct (py_isspace d); cbn [String.length]; lia. }
    specialize (Hle t). cbn [String.length] in Ht. lia.
  - intros _. cbn [rstrip].
    destruct (rstrip t); rewrite ?Hc; cbn [lstrip]; by rewrite Hc.
Qed.

(** [strip] is idempotent: a stripped string has nothing left to strip. *)
Lemma strip_idem s : strip (strip s) = strip s.
Proof.
  unfold strip. rewrite (lstrip_rstrip (lstrip s)) by apply lstrip_idem.
  apply rstrip_idem.
Qed.

Lemma val_strip_clean v s : val_strip v = Ok s -> strip s = s.
Proof. destruct v; [intros [= <-]; apply strip_idem | done]. Qed.

Lemma binary_cases q : binary q = 0 \/ binary q = 1.
Proof. unfold binary. destruct (0 <? q); auto. Qed.

Lemma for_rows_invariant {X S} (body : X -> S -> result S) (P : S -> Prop) xs s s' :
  (forall x t t', P t -> body x t = Ok t' -> P t') ->
  P s -> for_rows body xs s = Ok s' -> P s'.
Proof.
  intros Hbody. revert s.
  induction xs as [|x xs IH]; intros s Hs; cbn [for_rows].
  - by intros [= <-].
  - intros (t & Ht & Hrest)%rbind_Ok. eauto.
Qed.

(** A row that is read leaves the map alone or writes a 0 or a 1 under a
    non-empty, stripped key. *)
Lemma feed_format_step ft cm col body r st st' :
  feed_format ft cm col body -> body r st = Ok st' ->
  st' = st
  \/ exists sku v, st' = <[sku := v]> st /\ sku <> "" /\ strip sku = sku /\ (v = 0 \/ v = 1).
Proof.
  intros Hfmt. destruct Hfmt as [cm|cm|m Hm].
  - unfold azuregreen_body.
    intros (sku & Hsku & H)%rbind_Ok. apply rbind_Ok in H as (qty_raw & _ & H).
    apply rbind_Ok in H as (cant & _ & H).
    destruct (str_truthy sku) eqn:Ht; cbn in H; [|injection H as <-; by left].
    apply rbind_Ok in H as (qty & _ & [= <-]). right.
    eexists _, _. split; [done|]. split; [by intros ->|].
    split; [by eapply val_strip_clean | apply binary_cases].
  - unfold diecast_body.
    intros (sku & Hsku & H)%rbind_Ok. apply rbind_Ok in H as (qty_raw & _ & H).
    destruct (str_truthy sku) eqn:Ht; cbn in H; [|injection H as <-; by left].
    apply rbind_Ok in H as (qty & _ & [= <-]). right.
    eexists _, _. split; [done|]. split; [by intros ->|].
    split; [by eapply val_strip_clean | apply binary_cases].
  - unfold custom_body.
    intros (sku & Hsku & H)%rbind_Ok. apply rbind_Ok in H as (qty_raw & _ & H).
    destruct (str_truthy sku) eqn:Ht; cbn in H; [|injection H as <-; by left].
    apply rbind_Ok in H as (qty & _ & [= <-]). right.
    eexists _, _. split; [done|]. split; [by intros ->|].
    split; [by eapply val_strip_clean | apply binary_cases].
Qed.

(** A returned stock map is binary and has clean keys. *)
Lemma parse_feed_binary_clean
    (ft : string) (cm : option (gmap string string)) (rows : list row)
    (stock : gmap string Z) :
  parse_feed ft cm rows = Ok stock ->
  binary_stock stock /\ clean_keys stock.
Proof.
  intros Hparse.
  assert (Hempty : binary_stock ∅ /\ clean_keys ∅).
  { split; intros sku v Hsku; by rewrite lookup_empty in Hsku. }
  assert (Hloop : forall col body, feed_format ft cm col body ->
            for_rows body rows ∅ = Ok stock -> binary_stock stock /\ clean_keys stock).
  { intros col body Hfmt.
    apply (for_rows_invariant body (fun st => binary_stock st /\ clean_keys st));
      [|done].
    intros r t t' [Hbin Hclean] Hstep.
    destruct (feed_format_step _ _ _ _ _ _ _ Hfmt Hstep)
      as [->|(sku & v & -> & Hne & Hstrip & Hv)]; [done|].
    split; intros sku' v'; (destruct (decide (sku = sku')) as [<-|Hd];
      [rewrite lookup_insert_eq; intros [= <-] | rewrite lookup_insert_ne by done]);
      eauto. }
  unfold parse_feed in Hparse.
  destruct (String.eqb_spec ft "azuregreen") as [->|Ha].
  { by apply (Hloop _ _ (fmt_azuregreen cm)). }
  destruct (String.eqb_spec ft "diecast") as [->|Hd].
  { by apply (Hloop _ _ (fmt_diecast cm)). }
  destruct (String.eqb_spec ft "custom") as [->|Hc]; cbn in Hparse.
  - destruct cm as [m|]; cbn in Hparse; [|by injection Hparse as <-].
    destruct (decide (m = ∅)) as [->|Hm].
    + rewrite bool_decide_eq_true_2 in Hparse by done. by injection Hparse as <-.
    + rewrite bool_decide_eq_false_2 in Hparse by done.
      by apply (Hloop _ _ (fmt_custom m Hm)).
  - by injection Hparse as <-.
Qed.

(** X1. Whatever the feed type and the column mapping, a stock map returned
    by the normaliser holds only the quantities 0 and 1, under keys that
    are non-empty and have no leading or trailing whitespace. *)
Theorem X1_stock_map_is_binary_with_clean_keys
    (ft : string) (cm : option (gmap string string)) (rows : list row)
    (stock : gmap string Z) :
  parse_feed ft cm rows = Ok stock ->
  forall sku v, stock !! sku = Some v ->
    (v = 0 \/ v = 1) /\ sku <> "" /\ strip sku = sku.
Proof.
  intros Hparse sku v Hsku.
  destruct (parse_feed_binary_clean ft cm rows stock Hparse) as [Hbin Hclean].
  split; [by eapply Hbin|]. by eapply Hclean.
Qed.

Ltac rsimpl :=
  cbn [mbind result_bind rbind except_ValueError is_ValueError negb].

Lemma str_in_In x l : str_in x l = true <-> In x l.
Proof.
  unfold str_in. rewrite existsb_exists. split.
  - intros (y & Hy & ->%String.eqb_eq). done.
  - intros Hx. exists x. split; [done | apply String.eqb_refl].
Qed.

(** X2. A diecast row with a non-empty SKU is available exactly when its
    "Product Visible" value is an integer literal greater than 0, or is no
    integer literal and is, in lower case, one of "yes", "true", "1",
    "available"; every other value, a negative number included, gives 0. *)
Theorem X2_diecast_availability (r : row) (stock : gmap string Z) (sku raw : string) :
  sku_field "Product ID" r = Ok sku -> sku <> "" ->
  val_strip (row_get r "Product Visible" "0") = Ok raw ->
  exists v, diecast_body r stock = Ok (<[sku := v]> stock)
    /\ (v = 0 \/ v = 1)
    /\ (v = 1 <-> (exists n, py_int raw = Some n /\ 0 < n)
                  \/ (py_int raw = None /\ In (lower raw) diecast_tokens)).
Proof.
  unfold sku_field, diecast_body. intros -> Hsku ->. rsimpl.
  destruct (str_truthy sku) eqn:Hs; [|by apply str_truthy_false in Hs].
  rsimpl. unfold int_of_str. fold diecast_tokens.
  destruct (py_int raw) as [n|] eqn:Hn; rsimpl.
  - eexists. split; [done|]. split; [apply binary_cases|].
    unfold binary. destruct (Z.ltb_spec 0 n); split.
    + intros _. left. eauto.
    + done.
    + done.
    + intros [(n' & [= <-] & ?)|[? _]]; [lia | done].
  - destruct (str_in (lower raw) diecast_tokens) eqn:Htok; rsimpl;
      (eexists; split; [done|]); (split; [auto|]); split.
    + intros _. right. split; [done|]. by apply str_in_In.
    + done.
    + done.
    + intros [(n & ? & _)|[_ Hin]]; [done|].
      apply str_in_In in Hin. congruence.
Qed.

(** X3. A diecast feed never raises on rows whose two columns hold strings
    or are missing: no quantity can make it fail. *)
Theorem X3_diecast_never_raises (cm : option (gmap string string)) (rows : list row) :
  (forall r, r ∈ rows ->
     r !! "Product ID" <> Some None /\ r !! "Product Visible" <> Some None) ->
  exists stock, parse_feed "diecast" cm rows = Ok stock.
Proof.
  intros Hrows. rewrite (feed_format_parse _ _ _ _ _ (fmt_diecast cm)).
  generalize (∅ : gmap string Z).
  induction rows as [|r rows IH]; intros st; cbn [for_rows]; [eauto|].
  destruct (Hrows r ltac:(left)) as [Hid Hvis].
  assert (Hstep : exists st', diecast_body r st = Ok st').
  { assert (Hsku : exists sku, val_strip (row_get r "Product ID" "") = Ok sku).
    { unfold row_get. destruct (r !! "Product ID") as [[id|]|]; cbn; eauto. done. }
    assert (Hraw : exists raw, val_strip (row_get r "Product Visible" "0") = Ok raw).
    { unfold row_get. destruct (r !! "Product Visible") as [[vis|]|]; cbn; eauto. done. }
    destruct Hsku as (sku & Hsku), Hraw as (raw & Hraw).
    unfold diecast_body. rewrite Hsku, Hraw. rsimpl.
    destruct (str_truthy sku); rsimpl; [|eauto].
    unfold int_of_str. destruct (py_int raw); rsimpl; [eauto|].
    destruct (str_in _ _); rsimpl; eauto. }
  destruct Hstep as (st' & ->). rsimpl.
  apply IH. intros r' Hr'. apply Hrows. by right.
Qed.

(** X4. An azuregreen row with a non-empty SKU whose [UNITS] is not read as
    an infinite float writes 0 or 1: 1 exactly when the float value
    truncated towards zero is positive and [CANTSELL] (trimmed) is not "1".
    In particular a [UNITS] that is no float literal gives 0, and so does
    [CANTSELL] = "1" whatever the quantity. *)
Theorem X4_azuregreen_availability
    (r : row) (stock : gmap string Z) (sku units cant : string) :
  sku_field "NUMBER" r = Ok sku -> sku <> "" ->
  val_strip (row_get r "UNITS" "0") = Ok units ->
  val_strip (row_get r "CANTSELL" "0") = Ok cant ->
  ~ infinite_units units ->
  exists v, azuregreen_body r stock = Ok (<[sku := v]> stock)
    /\ (v = 0 \/ v = 1)
    /\ (v = 1 <-> 0 < truncated_units units /\ cant <> "1")
    /\ (py_float units = None -> v = 0)
    /\ (cant = "1" -> v = 0).
Proof.
  intros Hsku Hne Hunits Hcant Hfin.
  destruct (azuregreen_availability r stock sku units cant Hsku Hne Hunits Hcant Hfin)
    as (v & Hbody & Hv & Hiff).
  exists v. split; [done|]. split; [done|]. split; [done|]. split.
  - intros Hnone. destruct Hv as [->| ->]; [done|].
    destruct (proj1 Hiff eq_refl) as [Hpos _].
    unfold truncated_units in Hpos. rewrite Hnone in Hpos. lia.
  - intros ->. destruct Hv as [->| ->]; [done|].
    by destruct (proj1 Hiff eq_refl) as [_ ?].
Qed.

(** X5. Only [NUMBER], [UNITS] and [CANTSELL] matter to an azuregreen row,
    and only "Product ID" and "Product Visible" to a diecast row: any other
    column, [DISCONT] included, changes nothing. *)
Theorem X5_other_columns_are_ignored
    (r : row) (column : string) (value : option string) (stock : gmap string Z) :
  (column <> "NUMBER" -> column <> "UNITS" -> column <> "CANTSELL" ->
   azuregreen_body (<[column := value]> r) stock = azuregreen_body r stock)
  /\ (column <> "Product ID" -> column <> "Product Visible" ->
      diecast_body (<[column := value]> r) stock = diecast_body r stock).
Proof.
  split.
  - intros Hn Hu Hc. unfold azuregreen_body, row_get.
    by rewrite !lookup_insert_ne.
  - intros Hi Hv. unfold diecast_body, row_get.
    by rewrite !lookup_insert_ne.
Qed.

(** X6. A row shorter than the header aborts an azuregreen feed: when one
    of the three columns holds [None], the row raises [AttributeError], also
    when its SKU is blank, and the feed raises with it whatever the rows
    after it; the entries of the rows before it are lost. *)
Theorem X6_short_row_aborts_the_feed
    (cm : option (gmap string string)) (rows1 rows2 : list row) (r : row)
    (stock1 : gmap string Z) :
  parse_feed "azuregreen" cm rows1 = Ok stock1 ->
  r !! "NUMBER" = Some None \/ r !! "UNITS" = Some None \/ r !! "CANTSELL" = Some None ->
  parse_feed "azuregreen" cm (rows1 ++ r :: rows2) = Raise AttributeError.
Proof.
  rewrite !(feed_format_parse _ _ _ _ _ (fmt_azuregreen cm)).
  intros Hrows1 Hshort. rewrite for_rows_app, Hrows1. cbn [rbind for_rows].
  assert (Hr : azuregreen_body r stock1 = Raise AttributeError).
  { unfold azuregreen_body, row_get.
    destruct (r !! "NUMBER") as [[number|]|] eqn:Hn; [|done|];
      (destruct (r !! "UNITS") as [[units|]|] eqn:Hu; [|done|]);
      (destruct (r !! "CANTSELL") as [[cant|]|] eqn:Hc; [|done|]);
      by destruct Hshort as [?|[?|?]]. }
  by rewrite Hr.
Qed.

(** ** Further properties of the listing fetcher *)

Lemma listings_page_accepted root :
  ack_accepted (findtext (sl_Ack root) "") = true ->
  listings_page root =
    items ← for_rows item_body (sl_Items root) [];
    total_pages ← match sl_PaginationResult root with
                  | Some (Some t) => int_of_text t
                  | _ => Ok 1
                  end;
    Ok (items, total_pages,
        match sl_HasMoreItems root with
        | Some (Some t) => String.eqb t "true"
        | _ => false
        end).
Proof. intros Hack. unfold listings_page. by rewrite Hack. Qed.

Lemma listings_page_Ok root items total_pages has_more :
  listings_page root = Ok (items, total_pages, has_more) ->
  ack_accepted (findtext (sl_Ack root) "") = true
  /\ for_rows item_body (sl_Items root) [] = Ok items.
Proof.
  intros Hpage. destruct (ack_accepted (findtext (sl_Ack root) "")) eqn:Hack.
  - split; [done|]. rewrite (listings_page_accepted _ Hack) in Hpage.
    apply rbind_Ok in Hpage as (items' & Hitems & Hpage).
    apply rbind_Ok in Hpage as (tp & _ & Hpage). by injection Hpage as -> _ _.
  - unfold listings_page in Hpage. by rewrite Hack in Hpage.
Qed.

Lemma item_body_step item acc res :
  item_body item acc = Ok res ->
  res = acc \/ exists l, res = acc ++ [l] /\ listed_as item l.
Proof.
  unfold item_body.
  destruct (String.eqb_spec (findtext (ListingStatus item) "") "Active") as [Hact|Hact];
    cbn [negb]; [|intros [= <-]; by left].
  intros (total & Htotal & H)%rbind_Ok. apply rbind_Ok in H as (sold & Hsold & H).
  destruct (str_truthy (findtext (ItemID item) "")) eqn:Hid;
    [|injection H as <-; by left].
  destruct (str_truthy (strip (findtext (SKU item) ""))) eqn:Hsku;
    cbn [andb] in H; injection H as <-; [|by left].
  right. eexists. split; [done|]. unfold listed_as. cbn.
  split; [done|]. split; [done|]. split; [by intros Hx; rewrite Hx in Hid|].
  split; [done|]. split; [by intros Hx; rewrite Hx in Hsku|].
  exists total, sold. done.
Qed.

Lemma for_rows_item_body its acc res :
  for_rows item_body its acc = Ok res ->
  exists new, res = acc ++ new
    /\ Forall (fun l => exists item, item ∈ its /\ listed_as item l) new
    /\ (length new <= length its)%nat.
Proof.
  revert acc. induction its as [|item its IH]; intros acc; cbn [for_rows].
  - intros [= <-]. exists []. by rewrite app_nil_r.
  - intros (mid & Hstep & Hrest)%rbind_Ok.
    destruct (IH _ Hrest) as (new & -> & Hnew & Hlen).
    assert (Hnew' : Forall (fun l => exists it, it ∈ item :: its /\ listed_as it l) new).
    { eapply Forall_impl; [exact Hnew|]. intros l (it & Hit & Hl).
      exists it. split; [by right | done]. }
    destruct (item_body_step _ _ _ Hstep) as [->|(l & -> & Hl)].
    + exists new. split; [done|]. split; [done|]. cbn [length]. lia.
    + exists (l :: new). rewrite <- app_assoc. split; [done|]. split.
      * constructor; [|done]. exists item. split; [by left | done].
      * cbn [length]. lia.
Qed.

(** X7. Every listing a page returns was built from an active item of the
    response that has an item id and a SKU: its id and SKU are non-empty,
    the SKU is stripped, and its available quantity is the item's quantity
    less the quantity sold, never below 0.  A page returns at most as many
    listings as the response has items. *)
Theorem X7_fetched_listings_are_well_formed
    (root : seller_list_root) (items : list listing) (total_pages : Z) (has_more : bool) :
  listings_page root = Ok (items, total_pages, has_more) ->
  Forall (fun l =>
            (exists item, item ∈ sl_Items root /\ listed_as item l)
            /\ l_item_id l <> "" /\ l_sku l <> "" /\ strip (l_sku l) = l_sku l
            /\ 0 <= l_current_qty l) items
  /\ (length items <= length (sl_Items root))%nat.
Proof.
  intros [_ Hitems]%listings_page_Ok.
  destruct (for_rows_item_body _ _ _ Hitems) as (new & -> & Hnew & Hlen).
  cbn [app]. split; [|done].
  eapply Forall_impl; [exact Hnew|]. intros l (item & Hin & Hl).
  split; [eauto|].
  destruct Hl as (_ & _ & Hid & Hsku & Hne & total & sold & _ & _ & Hqty).
  split; [done|]. split; [done|]. split; [|lia].
  rewrite Hsku. apply strip_idem.
Qed.

(** X8. The quantities of an item are read only when the item is active: a
    response whose items are all inactive gives no listing whatever their
    quantities hold.  An active item whose [Quantity] text is no integer
    literal makes the whole page raise [ValueError], also when the item has
    no id or SKU and would have been left out. *)
Theorem X8_only_active_items_are_parsed (root : seller_list_root) :
  ack_accepted (findtext (sl_Ack root) "") = true ->
  ((forall item, item ∈ sl_Items root -> findtext (ListingStatus item) "" <> "Active") ->
   for_rows item_body (sl_Items root) [] = Ok [])
  /\ (forall its1 item its2 ls1 q,
        sl_Items root = its1 ++ item :: its2 ->
        for_rows item_body its1 [] = Ok ls1 ->
        findtext (ListingStatus item) "" = "Active" ->
        Quantity item = Some (Some q) -> q <> "" -> py_int q = None ->
        listings_page root = Raise (ValueError q)).
Proof.
  intros Hack. split.
  - generalize (@nil listing).
    induction (sl_Items root) as [|item its IH]; intros acc Hinactive; [done|].
    cbn [for_rows].
    assert (Hstep : item_body item acc = Ok acc).
    { unfold item_body.
      destruct (String.eqb_spec (findtext (ListingStatus item) "") "Active") as [Hact|_];
        [|done].
      by destruct (Hinactive item ltac:(left)). }
    rewrite Hstep. cbn [mbind result_bind rbind].
    apply IH. intros it Hit. apply Hinactive. by right.
  - intros its1 item its2 ls1 q Hitems Hits1 Hact Hq Hne Hint.
    rewrite (listings_page_accepted _ Hack), Hitems, for_rows_app, Hits1.
    cbn [rbind for_rows].
    assert (Hstep : item_body item ls1 = Raise (ValueError q)).
    { unfold item_body. rewrite Hact, Hq, String.eqb_refl. cbn [negb int_or_zero].
      destruct (str_truthy q) eqn:Hs; [|by apply str_truthy_false in Hs].
      unfold int_of_str. by rewrite Hint. }
    by rewrite Hstep.
Qed.

Lemma fetch_first_page (tr : trace) :
  _fetch_listings_page 1 tr
  = Some (rbind (get_seller_list E tr 1) listings_page, tr ++ [EGetSellerList 1]).
Proof.
  unfold _fetch_listings_page, request, lift, mbind, M_bind, bind.
  by destruct (get_seller_list E tr 1).
Qed.

(** X9. The page count of a response: a [TotalNumberOfPages] element
    without text makes the fetch raise [TypeError] after its first request,
    although the items of the page were read; a response without
    [PaginationResult], or without [TotalNumberOfPages] in it, counts as a
    single page, so the fetch returns after one request unless
    [HasMoreItems] is "true". *)
Theorem X9_page_count_edge_cases
    (fuel : nat) (tr : trace) (root : seller_list_root) (items : list listing) :
  (1 <= fuel)%nat ->
  get_seller_list E tr 1 = Ok root ->
  ack_accepted (findtext (sl_Ack root) "") = true ->
  for_rows item_body (sl_Items root) [] = Ok items ->
  (sl_PaginationResult root = Some (Some None) ->
   fetch_ebay_listings fuel tr = Some (Raise TypeError, tr ++ [EGetSellerList 1]))
  /\ (sl_PaginationResult root = None \/ sl_PaginationResult root = Some None ->
      sl_HasMoreItems root <> Some (Some "true") ->
      fetch_ebay_listings fuel tr = Some (Ok items, tr ++ [EGetSellerList 1])).
Proof.
  intros Hfuel Hget Hack Hitems. destruct fuel as [|fuel]; [lia|].
  unfold fetch_ebay_listings.
  rewrite (fetch_loop_step _ _ _ _ _ _ (fetch_first_page tr)), Hget.
  cbn [rbind]. rewrite (listings_page_accepted _ Hack), Hitems. cbn [mbind result_bind rbind].
  split.
  - by intros ->.
  - intros Hpag Hmore.
    assert (Hhm : match sl_HasMoreItems root with
                  | Some (Some t) => String.eqb t "true"
                  | _ => false
                  end = false).
    { destruct (sl_HasMoreItems root) as [[t|]|]; try done.
      apply String.eqb_neq. by intros ->. }
    rewrite Hhm. by destruct Hpag as [-> | ->].
Qed.

(** X10. When pages 1 to [n] (at most 500) are read, every page before [n]
    calling for another one and page [n] reporting the page count reached
    and no more items, the fetch makes exactly the [n] requests for pages
    1 to [n] and returns their listings in page order. *)
Theorem X10_fetch_reads_exactly_the_reported_pages
    (fuel n : nat) (tr : trace) (items : list listing) (total_pages : Z) :
  (500 <= fuel)%nat -> (1 <= n <= 500)%nat ->
  (forall k, (1 <= k < n)%nat -> page_continues tr k) ->
  page_result tr n = Ok (items, total_pages, false) ->
  total_pages <= Z.of_nat n ->
  fetch_ebay_listings fuel tr
  = Some (Ok (concat (map (page_items tr) (seq 1 n))), tr ++ requests_upto n).
Proof.
  intros Hfuel Hn Hbefore Hpage Hlast. unfold fetch_ebay_listings.
  destruct (fetch_loop_spec tr 499 1 fuel [] ltac:(lia) ltac:(lia) ltac:(lia))
    as (n' & Hn' & Hbefore' & Hend).
  cbn [Nat.sub requests_upto seq map] in Hend. rewrite app_nil_r in Hend.
  rewrite Nat.sub_0_r in Hend. change (Z.of_nat 1) with 1 in Hend.
  assert (n' = n) as ->.
  { destruct (Nat.lt_trichotomy n' n) as [Hlt|[->|Hgt]]; [|done|].
    - destruct (Hbefore n' ltac:(lia)) as (its & tp & hm & Hp & Hcont).
      destruct Hend as [(e & He & _)|(its' & tp' & hm' & Hp' & Hstop & _)].
      + by rewrite Hp in He.
      + rewrite Hp in Hp'. injection Hp' as <- <- <-.
        destruct Hstop as [Hstop|Hstop]; [done | lia].
    - destruct (Hbefore' n ltac:(lia)) as (its & tp & hm & Hp & Hcont).
      rewrite Hpage in Hp. injection Hp as <- <- <-. by destruct Hcont. }
  destruct Hend as [(e & He & _)|(its' & tp' & hm' & _ & _ & Hrun)]; [|done].
  by rewrite Hpage in He.
Qed.

(** ** Further properties of the updater and of the run *)

Lemma batch_counts_bounds answer size :
  0 <= size ->
  0 <= (batch_counts answer size).1
  /\ 0 <= (batch_counts answer size).2 <= size
  /\ size <= (batch_counts answer size).1 + (batch_counts answer size).2.
Proof.
  intros Hsize. unfold batch_counts.
  destruct answer as [root|e]; [|cbn; lia].
  destruct (decide _); cbn; lia.
Qed.

Lemma tally_bounds tr bs :
  0 <= (tally tr bs).1
  /\ 0 <= (tally tr bs).2 <= len (concat bs)
  /\ len (concat bs) <= (tally tr bs).1 + (tally tr bs).2.
Proof.
  revert tr. induction bs as [|b bs IH]; intros tr; cbn [tally concat fst snd].
  - unfold len. cbn. lia.
  - specialize (IH (tr ++ [EReviseInventoryStatus b])).
    pose proof (batch_counts_bounds (revise_inventory_status E tr b) (len b)
                  ltac:(unfold len; lia)) as Hb.
    unfold len in *. rewrite length_app. lia.
Qed.

Lemma batches_length updates :
  length (batches updates) = ((length updates + 3) / 4)%nat.
Proof.
  unfold batches, chunks.
  rewrite <- (slices_chunks (length updates)) by done.
  unfold range0. rewrite !length_map, length_seq.
  by replace (length updates + 4 - 1)%nat with (length updates + 3)%nat by lia.
Qed.

(** X11. The counters of the updater: both are non-negative, failed is at
    most the number of updates, and together they account for every update
    (succeeded + failed is at least the number of updates, and exactly that
    number when no accepted answer lists more entries than its batch has
    items).  The updater sends ceil(n / 4) requests for n updates, none for
    an empty list, and never raises. *)
Theorem X11_updater_accounts_for_every_update (updates : list update) (tr : trace) :
  exists succeeded failed sent,
    update_ebay_quantities updates tr
    = Some (Ok (succeeded, failed), tr ++ map EReviseInventoryStatus sent)
    /\ length sent = ((length updates + 3) / 4)%nat
    /\ 0 <= succeeded
    /\ 0 <= failed <= len updates
    /\ len updates <= succeeded + failed
    /\ ((forall tr' b root,
           revise_inventory_status E tr' b = Ok root ->
           (rv_InventoryStatus root <= length b)%nat) ->
        succeeded + failed = len updates).
Proof.
  rewrite update_ebay_quantities_run.
  destruct (tally tr (batches updates)) as [succeeded failed] eqn:Htally.
  exists succeeded, failed, (batches updates). split; [done|].
  split; [apply batches_length|].
  pose proof (tally_bounds tr (batches updates)) as Hb.
  rewrite Htally in Hb. cbn [fst snd] in Hb.
  assert (Hcat : concat (batches updates) = updates) by by apply chunks_aux_concat.
  rewrite Hcat in Hb.
  split; [lia|]. split; [lia|]. split; [lia|].
  intros Hsane. rewrite <- Hcat.
  assert (Hexact : forall bs t, (tally t bs).1 + (tally t bs).2 = len (concat bs)).
  { induction bs as [|b bs IH]; intros t; cbn [tally concat fst snd]; [done|].
    specialize (IH (t ++ [EReviseInventoryStatus b])).
    unfold len in *. rewrite length_app. unfold batch_counts.
    destruct (revise_inventory_status E t b) as [root|e] eqn:Hans; [|cbn; lia].
    apply Hsane in Hans. destruct (decide _); cbn; lia. }
  specialize (Hexact (batches updates) tr). by rewrite Htally in Hexact.
Qed.

Lemma tally_all_rejected tr bs :
  (forall tr' b,
     match revise_inventory_status E tr' b with
     | Ok root => ack_accepted (findtext (rv_Ack root) "") = false
     | Raise _ => True
     end) ->
  tally tr bs = (0, len (concat bs)).
Proof.
  intros Hrej. revert tr.
  induction bs as [|b bs IH]; intros tr; cbn [tally concat]; [done|].
  rewrite IH. cbn [fst snd]. unfold len. rewrite length_app.
  specialize (Hrej tr b). unfold batch_counts.
  destruct (revise_inventory_status E tr b) as [root|e].
  - rewrite decide_False
      by (intros Hacc; apply ack_accepted_spec in Hacc; congruence).
    cbn [fst snd]. f_equal; lia.
  - cbn [fst snd]. f_equal; lia.
Qed.

Lemma diff_lengths supplier_stock ls :
  len (diff supplier_stock ls).1 + len (diff supplier_stock ls).2 <= len ls.
Proof.
  unfold diff. rewrite diff_loop_spec. cbn [fst snd app]. unfold len.
  rewrite !length_map.
  induction ls as [|l ls IH]; cbn [List.filter length]; [lia|].
  unfold stale at 1, unmatched_listing at 1.
  destruct (supplier_stock !! l_sku l) as [q|]; [destruct (negb _)|];
    cbn [length]; lia.
Qed.

Lemma count_out_of_stock_bounds us :
  0 <= count_out_of_stock us <= len us.
Proof.
  unfold len. induction us as [|u us IH]; cbn [count_out_of_stock length]; [lia|].
  destruct (u_new_qty u =? 0); lia.
Qed.

(** X12. Failures of the updater never fail the run: when the download and
    the fetch succeed and every update request raises or is answered with
    a rejected acknowledgment, the run is still "completed", with 0 items
    updated and every needed update counted as failed. *)
Theorem X12_run_completes_when_every_update_fails
    (fuel : nat) (feed_url feed_type : string) (cm : option (gmap string string))
    (tr tr1 tr2 : trace) (supplier_stock : gmap string Z) (ebay_listings : list listing) :
  download_supplier_stock feed_url feed_type cm tr = Some (Ok supplier_stock, tr1) ->
  fetch_ebay_listings fuel tr1 = Some (Ok ebay_listings, tr2) ->
  (forall tr' b,
     match revise_inventory_status E tr' b with
     | Ok root => ack_accepted (findtext (rv_Ack root) "") = false
     | Raise _ => True
     end) ->
  exists r tr3,
    run_sync fuel feed_url feed_type cm tr = Some (Ok r, tr3)
    /\ status r = "completed"
    /\ items_updated r = 0
    /\ items_failed r = len (diff supplier_stock ebay_listings).1
    /\ error_message r = None.
Proof.
  intros Hdl Hfetch Hrej. rewrite run_sync_run, Hdl, Hfetch. cbn zeta.
  rewrite update_ebay_quantities_run, (tally_all_rejected _ _ Hrej).
  assert (Hcat : concat (batches (diff supplier_stock ebay_listings).1)
                 = (diff supplier_stock ebay_listings).1) by by apply chunks_aux_concat.
  rewrite Hcat. eexists _, _. split; [done|]. done.
Qed.

(** X13. The shape of every result: a run returns either a "completed"
    result without error message, whose counts are non-negative, whose
    unmatched and out-of-stock counts together do not exceed the listings
    checked, and whose failed count does not exceed the listings checked
    less the unmatched ones; or a "failed" result with an error message and
    all counts 0. *)
Theorem X13_result_is_completed_or_failed
    (fuel : nat) (feed_url feed_type : string) (cm : option (gmap string string))
    (tr tr' : trace) (r : sync_result) :
  run_sync fuel feed_url feed_type cm tr = Some (Ok r, tr') ->
  (status r = "completed" /\ error_message r = None
   /\ 0 <= items_updated r /\ 0 <= items_failed r
   /\ 0 <= items_out_of_stock r /\ 0 <= unmatched_skus r
   /\ unmatched_skus r + items_out_of_stock r <= total_listings_checked r
   /\ items_failed r <= total_listings_checked r - unmatched_skus r)
  \/ (status r = "failed" /\ (exists message, error_message r = Some message)
      /\ total_listings_checked r = 0 /\ items_updated r = 0 /\ items_failed r = 0
      /\ items_out_of_stock r = 0 /\ unmatched_skus r = 0).
Proof.
  rewrite run_sync_run.
  destruct (download_supplier_stock _ _ _ tr) as [[[stock|e] tr1]|]; [| |done].
  - destruct (fetch_ebay_listings fuel tr1) as [[[ls|e] tr2]|]; [| |done].
    + cbn zeta. rewrite update_ebay_quantities_run.
      destruct (tally tr2 _) as [updated failed] eqn:Htally.
      intros [= <- _]. left. cbn.
      pose proof (tally_bounds tr2 (batches (diff stock ls).1)) as Hb.
      rewrite Htally in Hb. cbn [fst snd] in Hb.
      replace (concat (batches (diff stock ls).1)) with (diff stock ls).1 in Hb
        by (symmetry; by apply chunks_aux_concat).
      pose proof (diff_lengths stock ls) as Hd.
      pose proof (count_out_of_stock_bounds (diff stock ls).1) as Hc.
      assert (0 <= len (diff stock ls).2) by (unfold len; lia).
      repeat split; try done; lia.
    + intros [= <- _]. right. cbn. repeat split; eauto.
  - intros [= <- _]. right. cbn. repeat split; eauto.
Qed.

Lemma diff_updates supplier_stock ls :
  Forall (fun u => supplier_stock !! u_sku u = Some (u_new_qty u)
                   /\ u_new_qty u <> u_old_qty u
                   /\ exists l, In l ls /\ u = update_for supplier_stock l)
    (diff supplier_stock ls).1.
Proof.
  unfold diff. rewrite diff_loop_spec. cbn [fst app].
  apply List.Forall_forall. intros u (l & <- & Hl)%in_map_iff.
  apply filter_In in Hl as [Hl Hstale].
  unfold stale in Hstale. unfold update_for. cbn.
  destruct (supplier_stock !! l_sku l) as [q|] eqn:Hq; [|done]. cbn.
  split; [done|]. split.
  - apply negb_true_iff in Hstale. by apply Z.eqb_neq.
  - exists l. split; [done|]. unfold update_for. by rewrite Hq.
Qed.

(** X14. The requests of a run, in order: the feed download, then the page
    requests for pages 1 to some [n], then the update batches, each of 1 to
    4 items.  A failed run sends no update.  Every update sent sets the
    quantity to 0 or 1 and to a value other than the one the listing had. *)
Theorem X14_requests_of_a_run
    (fuel : nat) (feed_url feed_type : string) (cm : option (gmap string string))
    (tr tr' : trace) (r : sync_result) :
  (500 <= fuel)%nat ->
  run_sync fuel feed_url feed_type cm tr = Some (Ok r, tr') ->
  exists n sent,
    tr' = tr ++ EGetFeed feed_url :: requests_upto n ++ map EReviseInventoryStatus sent
    /\ (status r = "failed" -> sent = [])
    /\ Forall (fun b => (1 <= length b <= 4)%nat) sent
    /\ Forall (fun u => (u_new_qty u = 0 \/ u_new_qty u = 1)
                        /\ u_new_qty u <> u_old_qty u) (concat sent).
Proof.
  intros Hfuel. rewrite run_sync_run, download_run.
  destruct (rbind (http_get E tr feed_url) (parse_feed feed_type cm))
    as [stock|e] eqn:Hstock.
  - destruct (fetch_ebay_listings_answers fuel (tr ++ [EGetFeed feed_url]) Hfuel)
      as ([ls|e] & n & ->).
    + cbn zeta. rewrite update_ebay_quantities_run.
      destruct (tally _ _) as [updated failed]. intros [= <- <-].
      exists n, (batches (diff stock ls).1).
      split; [by rewrite <- !app_assoc|]. split; [done|].
      split; [apply chunks_aux_sizes|].
      replace (concat (batches (diff stock ls).1)) with (diff stock ls).1
        by (symmetry; by apply chunks_aux_concat).
      apply rbind_Ok in Hstock as (rows & _ & Hparse).
      destruct (parse_feed_binary_clean _ _ _ _ Hparse) as [Hbin _].
      eapply Forall_impl; [apply diff_updates|].
      intros u (Hu & Hne & _). split; [by eapply Hbin | done].
    + intros [= <- <-]. exists n, []. cbn [map].
      rewrite app_nil_r, <- app_assoc. done.
  - intros [= <- <-]. exists 0%nat, []. done.
Qed.

(** X15. The diff converges: once the quantity of every listing whose SKU
    is in the stock map has been set to the map's, a second diff asks for
    no update and reports the same unmatched SKUs. *)
Theorem X15_diff_of_settled_listings_is_empty
    (supplier_stock : gmap string Z) (ls : list listing) :
  diff supplier_stock (map (settle supplier_stock) ls)
  = ([], (diff supplier_stock ls).2).
Proof.
  assert (Hsku : forall l, l_sku (settle supplier_stock l) = l_sku l).
  { intros l. unfold settle. by destruct (supplier_stock !! l_sku l). }
  assert (Hstale : forall l, stale supplier_stock (settle supplier_stock l) = false).
  { intros l. unfold stale. rewrite Hsku. unfold settle.
    destruct (supplier_stock !! l_sku l) as [q|]; [|done].
    cbn. by rewrite Z.eqb_refl. }
  assert (Hun : forall l, unmatched_listing supplier_stock (settle supplier_stock l)
                          = unmatched_listing supplier_stock l).
  { intros l. unfold unmatched_listing. by rewrite Hsku. }
  unfold diff. rewrite !diff_loop_spec. cbn [fst snd app]. f_equal.
  - induction ls as [|l ls IH]; [done|]. cbn [map List.filter].
    by rewrite Hstale.
  - induction ls as [|l ls IH]; [done|]. cbn [map List.filter].
    rewrite Hun. destruct (unmatched_listing supplier_stock l); [|done].
    cbn [map]. by rewrite Hsku, IH.
Qed.

(** X16. Binary mode overwrites real quantities: with a stock map returned
    by the normaliser, every listing whose SKU is in the map and that has 2
    or more available gets an update, down to 1 or to 0. *)
Theorem X16_binary_mode_revises_larger_quantities
    (ft : string) (cm : option (gmap string string)) (rows : list row)
    (stock : gmap string Z) (ls : list listing) (l : listing) :
  parse_feed ft cm rows = Ok stock ->
  In l ls -> is_Some (stock !! l_sku l) -> 2 <= l_current_qty l ->
  exists u, In u (diff stock ls).1
    /\ u_item_id u = l_item_id l /\ u_sku u = l_sku l
    /\ u_old_qty u = l_current_qty l
    /\ (u_new_qty u = 0 \/ u_new_qty u = 1).
Proof.
  intros Hparse Hl [q Hq] Hqty.
  destruct (parse_feed_binary_clean _ _ _ _ Hparse) as [Hbin _].
  pose proof (Hbin _ _ Hq) as Hq01.
  exists (update_for stock l). split.
  - unfold diff. rewrite diff_loop_spec. cbn [fst app].
    apply in_map, filter_In. split; [done|].
    unfold stale. rewrite Hq. apply negb_true_iff, Z.eqb_neq. lia.
  - unfold update_for. cbn. by rewrite Hq.
Qed.

(** ** The request headers and the caller's column mapping *)

(** X17. [build_headers] fails exactly when the configuration lacks
    [app_id], [dev_id] or [cert_id]; a missing [site_id] is "0".  The
    headers carry the call name and the three application credentials, and
    nothing else of the configuration: the user token and the API URL never
    reach a header. *)
Theorem X17_headers_of_a_configuration (config : gmap string string) (call_name : string) :
  (is_Some (build_headers config call_name)
     <-> is_Some (config !! "app_id") /\ is_Some (config !! "dev_id")
         /\ is_Some (config !! "cert_id"))
  /\ (forall h, build_headers config call_name = Some h ->
        h !! "X-EBAY-API-CALL-NAME" = Some call_name
        /\ h !! "X-EBAY-API-SITEID" = Some (default "0" (config !! "site_id"))
        /\ h !! "X-EBAY-API-APP-NAME" = config !! "app_id"
        /\ h !! "X-EBAY-API-DEV-NAME" = config !! "dev_id"
        /\ h !! "X-EBAY-API-CERT-NAME" = config !! "cert_id"
        /\ size h = 7%nat)
  /\ (forall key value,
        key <> "site_id" -> key <> "app_id" -> key <> "dev_id" -> key <> "cert_id" ->
        build_headers (<[key := value]> config) call_name = build_headers config call_name).
Proof.
  split; [|split].
  - unfold build_headers.
    destruct (config !! "app_id") as [a|], (config !! "dev_id") as [d|],
      (config !! "cert_id") as [c|]; cbn; split;
      try (intros [? ?]; done); try (intros ([? ?] & [? ?] & [? ?]); done); eauto.
  - intros h. unfold build_headers, mapping_get.
    destruct (config !! "app_id") as [a|], (config !! "dev_id") as [d|],
      (config !! "cert_id") as [c|]; cbn; try done.
    intros [= <-]. destruct (config !! "site_id"); cbn; repeat split; done.
  - intros key value Hs Ha Hd Hc. unfold build_headers, mapping_get.
    by rewrite !lookup_insert_ne.
Qed.

(** X18. Through [run_sync_job] a custom feed is always read: the mapping
    it passes holds both keys, so the rows are read from the feed's own SKU
    and quantity columns, like an azuregreen feed without [CANTSELL], and
    the defaults "SKU" and "Quantity" are never used.  For a feed type
    other than "custom" the mapping changes nothing. *)
Theorem X18_column_mapping_of_the_job
    (sku_column quantity_column : string) (rows : list row) :
  parse_feed "custom" (Some (job_column_mapping sku_column quantity_column)) rows
  = parse_feed "azuregreen" None (map (as_azuregreen sku_column quantity_column) rows)
  /\ (forall feed_type cm,
        feed_type <> "custom" ->
        parse_feed feed_type (Some (job_column_mapping sku_column quantity_column)) rows
        = parse_feed feed_type cm rows).
Proof.
  split.
  - assert (Hm : job_column_mapping sku_column quantity_column <> ∅)
      by apply insert_non_empty.
    rewrite (feed_format_parse _ _ _ _ _ (fmt_custom _ Hm)).
    rewrite (feed_format_parse _ _ _ _ _ (fmt_azuregreen None)).
    apply for_rows_map. intros r stock.
    rewrite custom_body_as_azuregreen. unfold mapping_get, job_column_mapping.
    rewrite lookup_insert_eq, lookup_insert_ne by done.
    by rewrite lookup_singleton_eq.
  - intros feed_type cm Hft. unfold parse_feed.
    apply String.eqb_neq in Hft. rewrite Hft. cbn [andb].
    by destruct (String.eqb feed_type "azuregreen"), (String.eqb feed_type "diecast").
Qed.

End Engine.

(** ** Closed instances *)

(** The spec's diff examples: a changed quantity gives one update, an
    unchanged one none, an unknown SKU is unmatched. *)
Example diff_examples_of_the_spec :
  diff ({["S1" := 0]} : gmap string Z) [mk_listing "I1" "S1" 1]
  = ([mk_update "I1" "S1" 1 0], [])
  /\ diff ({["S1" := 1]} : gmap string Z) [mk_listing "I1" "S1" 1] = ([], [])
  /\ diff ({["S1" := 1]} : gmap string Z) [mk_listing "I9" "S9" 1] = ([], ["S9"]).
Proof. repeat split; vm_compute; reflexivity. Qed.

(** The spec's end-to-end example: two stale listings, one going out of
    stock, none unmatched. *)
Lemma C9_completed_example :
  exists updated failed tr3,
    update_ebay_quantities env_ok
      (diff sample_stock
         [mk_listing "I1" "A" 0; mk_listing "I2" "B" 1]).1
      [EGetFeed "feed"; EGetSellerList 1]
    = Some (Ok (updated, failed), tr3)
    /\ run_sync sample_int sample_float sample_str env_ok 500 "feed" "azuregreen" None []
       = Some (Ok {| status := "completed";
                     total_listings_checked := 2;
                     items_updated := updated;
                     items_failed := failed;
                     items_out_of_stock := 1;
                     unmatched_skus := 0;
                     error_message := None |}, tr3).
Proof.
  exact (C9_completed_result_counts sample_int sample_float sample_str env_ok
           500 "feed" "azuregreen" None [] [EGetFeed "feed"]
           [EGetFeed "feed"; EGetSellerList 1]
           sample_stock [mk_listing "I1" "A" 0; mk_listing "I2" "B" 1]
           ltac:(vm_compute; reflexivity) ltac:(vm_compute; reflexivity)).
Defined.

(** A run whose feed download fails: "failed", all counts 0, the message of
    the HTTP error, and only the feed request made. *)
Lemma C2_feed_down_example :
  run_sync sample_int sample_float sample_str env_feed_down 500 "feed" "azuregreen" None []
  = Some (Ok (failed_result "503 Server Error"), [EGetFeed "feed"]).
Proof.
  exact (proj1 (proj2 (C2_run_sync_catches_every_error sample_int sample_float sample_str
                         env_feed_down 500 "feed" "azuregreen" None [] (le_n 500)))
           (LibError "HTTPError" "503 Server Error") [EGetFeed "feed"]
           ltac:(vm_compute; reflexivity)).
Defined.

(** Nine updates, the second request failing: batches of 4, 4 and 1, five
    items updated, four failed, three requests made. *)
Lemma C3_nine_updates_example :
  update_ebay_quantities env_second_batch_fails nine_updates []
  = Some (Ok (5, 4),
          [EReviseInventoryStatus (map sample_update [1; 2; 3; 4]);
           EReviseInventoryStatus (map sample_update [5; 6; 7; 8]);
           EReviseInventoryStatus (map sample_update [9])]).
Proof.
  destruct (C3_batches_counted_independently env_second_batch_fails nine_updates [])
    as (_ & _ & _ & _ & H).
  destruct (H eq_refl) as (b1 & b2 & b3 & Hb & _ & Hrun).
  cbv in Hb. injection Hb as <- <- <-.
  exact (Hrun (LibError "ConnectionError" "connection reset") eq_refl).
Defined.

(** A custom feed with "SKU" and "Quantity" columns and no mapping, or an
    empty one: the stock map is empty. *)
Lemma C4_no_mapping_gives_empty_map :
  sku_field "SKU" (custom_row "A1" "5") = Ok "A1"
  /\ row_get (custom_row "A1" "5") "Quantity" "0" = Some "5"
  /\ parse_feed sample_int sample_float "custom" None [custom_row "A1" "5"] = Ok ∅
  /\ parse_feed sample_int sample_float "custom" (Some ∅) [custom_row "A1" "5"] = Ok ∅.
Proof. repeat split; vm_compute; reflexivity. Qed.

(** The same feed with a non-empty mapping that names neither column is
    read through the defaults. *)
Lemma C4_defaults_example :
  parse_feed sample_int sample_float "custom"
    (Some {["delimiter" := ","]}) [custom_row "A1" "5"]
  = parse_feed sample_int sample_float "azuregreen" None
      (map (as_azuregreen "SKU" "Quantity") [custom_row "A1" "5"])
  /\ parse_feed sample_int sample_float "custom"
       (Some {["delimiter" := ","]}) [custom_row "A1" "5"]
     = Ok {["A1" := 1]}.
Proof.
  split.
  - apply (proj1 (proj2 (C4_custom_defaults_need_a_mapping sample_int sample_float))).
    + apply insert_non_empty.
    + vm_compute. reflexivity.
    + vm_compute. reflexivity.
  - vm_compute. reflexivity.
Defined.

(** The row [{NUMBER: "X1", UNITS: "inf", CANTSELL: "1"}] raises. *)
Lemma C5_inf_row_example :
  parse_feed sample_int sample_float "azuregreen" None
    [mk_row [("NUMBER", "X1"); ("UNITS", "inf"); ("CANTSELL", "1")]]
  = Raise OverflowError.
Proof.
  apply (C5_infinite_units_raise sample_int sample_float
           (mk_row [("NUMBER", "X1"); ("UNITS", "inf"); ("CANTSELL", "1")])
           "X1" "inf" "1" None).
  - vm_compute. reflexivity.
  - discriminate.
  - vm_compute. reflexivity.
  - vm_compute. reflexivity.
  - exists false. vm_compute. reflexivity.
Defined.

(** The spec's two azuregreen rows. *)
Example azuregreen_rows_of_the_spec :
  rbind (parse_feed sample_int sample_float "azuregreen" None
           [mk_row [("NUMBER", "X1"); ("UNITS", "5"); ("CANTSELL", "1")];
            mk_row [("NUMBER", "X2"); ("UNITS", "3"); ("CANTSELL", "0")]])
    (fun stock => Ok (stock !! "X1", stock !! "X2"))
  = Ok (Some 0, Some 1).
Proof. vm_compute. reflexivity. Qed.

(** The spec's two diecast rows. *)
Example diecast_rows_of_the_spec :
  rbind (parse_feed sample_int sample_float "diecast" None
           [mk_row [("Product ID", "D1"); ("Product Visible", "available")];
            mk_row [("Product ID", "D2"); ("Product Visible", "0")]])
    (fun stock => Ok (stock !! "D1", stock !! "D2"))
  = Ok (Some 1, Some 0).
Proof. vm_compute. reflexivity. Qed.

(** Three azuregreen rows, the second with a blank SKU, the first and third
    with the same SKU: the third row decides. *)
Lemma C6_last_row_example :
  exists v,
    (forall st,
       azuregreen_body sample_float
         (mk_row [("NUMBER", " X1 "); ("UNITS", "0"); ("CANTSELL", "0")]) st
       = Ok (<["X1" := v]> st))
    /\ x1_out_of_stock !! "X1" = Some v.
Proof.
  apply (proj2 (proj2 (C6_blank_sku_skipped_last_row_wins sample_int sample_float
                  "azuregreen" None "NUMBER" (azuregreen_body sample_float)
                  [mk_row [("NUMBER", "X1"); ("UNITS", "5"); ("CANTSELL", "0")];
                   mk_row [("NUMBER", "  "); ("UNITS", "3"); ("CANTSELL", "0")];
                   mk_row [("NUMBER", " X1 "); ("UNITS", "0"); ("CANTSELL", "0")]]
                  x1_out_of_stock
                  (fmt_azuregreen sample_int sample_float None)
                  ltac:(vm_compute; reflexivity)))
           [mk_row [("NUMBER", "X1"); ("UNITS", "5"); ("CANTSELL", "0")];
            mk_row [("NUMBER", "  "); ("UNITS", "3"); ("CANTSELL", "0")]]
           (mk_row [("NUMBER", " X1 "); ("UNITS", "0"); ("CANTSELL", "0")])
           [] "X1").
  - reflexivity.
  - vm_compute. reflexivity.
  - discriminate.
  - intros r' Hr'. by apply elem_of_nil in Hr'.
Defined.

(** A custom feed without a mapping: two rows with the SKU "A", and no
    entry for "A". *)
Lemma C6_custom_without_mapping_has_no_entry :
  sku_field "SKU" (custom_row "A" "1") = Ok "A"
  /\ sku_field "SKU" (custom_row "A" "0") = Ok "A"
  /\ exists stock,
       parse_feed sample_int sample_float "custom" None
         [custom_row "A" "1"; custom_row "A" "0"] = Ok stock
       /\ stock !! "A" = None.
Proof.
  split; [vm_compute; reflexivity|]. split; [vm_compute; reflexivity|].
  exists ∅. split; [vm_compute; reflexivity | apply lookup_empty].
Qed.

(** The sample server: the fetch answers within the ceiling. *)
Lemma C7_fetch_example :
  exists n, (1 <= n <= 500)%nat
    /\ (forall k, (1 <= k < n)%nat -> page_continues sample_int env_ok [] k)
    /\ ((exists e, page_result sample_int env_ok [] n = Raise e
           /\ fetch_ebay_listings sample_int env_ok 500 []
              = Some (Raise e, [] ++ requests_upto n))
        \/ (exists items total_pages has_more,
              page_result sample_int env_ok [] n = Ok (items, total_pages, has_more)
              /\ ((total_pages <= Z.of_nat n /\ has_more = false) \/ n = 500%nat)
              /\ fetch_ebay_listings sample_int env_ok 500 []
                 = Some (Ok (concat (map (page_items sample_int env_ok []) (seq 1 n))),
                         [] ++ requests_upto n))).
Proof.
  exact (C7_fetch_terminates_within_500_pages sample_int env_ok 500 [] (le_n 500)).
Defined.

(** A server that always announces more items is asked for 500 pages, and
    the fetch returns. *)
Example fetch_stops_at_the_ceiling :
  fetch_ebay_listings sample_int env_endless 500 [] = Some (Ok [], requests_upto 500)
  /\ fetch_ebay_listings sample_int env_endless 1000 [] = Some (Ok [], requests_upto 500).
Proof. split; vm_compute; reflexivity. Qed.

(** A rejected answer raises with its error entries. *)
Lemma C8_failure_example :
  listings_page sample_int sample_failure
  = Raise (RuntimeError ["[931] Auth token is invalid."]).
Proof.
  apply (proj1 (proj2 (C8_protocol_error_iff_ack_rejected sample_int sample_failure))).
  split; discriminate.
Defined.

(** A mistyped feed type on the sample server: "completed", nothing updated,
    both listings unmatched. *)
Lemma C10_mistyped_feed_example :
  run_sync sample_int sample_float sample_str env_ok 500 "feed" "azuregren" None []
  = Some (Ok {| status := "completed";
                total_listings_checked := 2;
                items_updated := 0;
                items_failed := 0;
                items_out_of_stock := 0;
                unmatched_skus := 2;
                error_message := None |},
          [EGetFeed "feed"; EGetSellerList 1]).
Proof.
  assert (Hft : unhandled_feed "azuregren" None)
    by (left; repeat split; discriminate).
  assert (Hfetch : fetch_ebay_listings sample_int env_ok 500 ([] ++ [EGetFeed "feed"])
                   = Some (Ok [mk_listing "I1" "A" 0; mk_listing "I2" "B" 1],
                           [EGetFeed "feed"; EGetSellerList 1]))
    by (vm_compute; reflexivity).
  rewrite (proj2 (C10_unhandled_feed_type_completes sample_int sample_float sample_str
                    env_ok "azuregren" None Hft)
             500%nat "feed" [] sample_rows _ _ eq_refl Hfetch).
  reflexivity.
Defined.

(** ** Closed instances of the further properties *)

Lemma sample_feed_parses :
  parse_feed sample_int sample_float "azuregreen" None sample_rows = Ok sample_stock.
Proof. vm_compute. reflexivity. Qed.

Lemma sample_run :
  run_sync sample_int sample_float sample_str env_ok 500 "feed" "azuregreen" None []
  = Some (Ok sample_result, sample_trace).
Proof. vm_compute. reflexivity. Qed.

Lemma X1_sample_stock_example :
  (1 = 0 \/ 1 = 1) /\ "A" <> "" /\ strip "A" = "A".
Proof.
  exact (X1_stock_map_is_binary_with_clean_keys sample_int sample_float
           "azuregreen" None sample_rows sample_stock sample_feed_parses
           "A" 1 ltac:(vm_compute; reflexivity)).
Defined.

Lemma X2_diecast_example :
  exists v,
    diecast_body sample_int
      (mk_row [("Product ID", "D1"); ("Product Visible", "Available")]) ∅
    = Ok (<["D1" := v]> ∅)
    /\ (v = 0 \/ v = 1)
    /\ (v = 1 <-> (exists n, sample_int "Available" = Some n /\ 0 < n)
                  \/ (sample_int "Available" = None
                      /\ In (lower "Available") diecast_tokens)).
Proof.
  apply (X2_diecast_availability sample_int
           (mk_row [("Product ID", "D1"); ("Product Visible", "Available")]) ∅
           "D1" "Available").
  - vm_compute. reflexivity.
  - discriminate.
  - vm_compute. reflexivity.
Defined.

Lemma X3_diecast_example :
  exists stock,
    parse_feed sample_int sample_float "diecast" None
      [mk_row [("Product ID", "D1"); ("Product Visible", "inf")];
       mk_row [("Product ID", "D2")]] = Ok stock.
Proof.
  apply (X3_diecast_never_raises sample_int sample_float None).
  intros r Hr. apply elem_of_cons in Hr as [->|Hr].
  - split; vm_compute; discriminate.
  - apply elem_of_cons in Hr as [->|Hr].
    + split; vm_compute; discriminate.
    + by apply elem_of_nil in Hr.
Defined.

Lemma X4_azuregreen_example :
  exists v,
    azuregreen_body sample_float
      (mk_row [("NUMBER", "X2"); ("UNITS", "3"); ("CANTSELL", "0")]) ∅
    = Ok (<["X2" := v]> ∅)
    /\ (v = 0 \/ v = 1)
    /\ (v = 1 <-> 0 < truncated_units sample_float "3" /\ "0" <> "1")
    /\ (sample_float "3" = None -> v = 0)
    /\ ("0" = "1" -> v = 0).
Proof.
  apply (X4_azuregreen_availability sample_float
           (mk_row [("NUMBER", "X2"); ("UNITS", "3"); ("CANTSELL", "0")]) ∅
           "X2" "3" "0").
  - vm_compute. reflexivity.
  - discriminate.
  - vm_compute. reflexivity.
  - vm_compute. reflexivity.
  - intros [sign Hinf]. vm_compute in Hinf. discriminate.
Defined.

Lemma X6_short_row_example :
  parse_feed sample_int sample_float "azuregreen" None
    (sample_rows ++ short_row :: sample_rows)
  = Raise AttributeError.
Proof.
  apply (X6_short_row_aborts_the_feed sample_int sample_float None
           sample_rows sample_rows short_row sample_stock sample_feed_parses).
  right. left. vm_compute. reflexivity.
Defined.

Lemma X7_sample_page_example :
  Forall (fun l =>
            (exists item, item ∈ sl_Items sample_page /\ listed_as sample_int item l)
            /\ l_item_id l <> "" /\ l_sku l <> "" /\ strip (l_sku l) = l_sku l
            /\ 0 <= l_current_qty l) sample_listings
  /\ (length sample_listings <= length (sl_Items sample_page))%nat.
Proof.
  exact (X7_fetched_listings_are_well_formed sample_int sample_page sample_listings
           1 false ltac:(vm_compute; reflexivity)).
Defined.

Lemma X8_bad_quantity_example :
  listings_page sample_int bad_quantity_page = Raise (ValueError "many").
Proof.
  apply (proj2 (X8_only_active_items_are_parsed sample_int bad_quantity_page eq_refl)
           [sample_item "I1" "A" "Completed" "n/a" "n/a"]
           (sample_item "" "" "Active" "many" "0") [] [] "many").
  - reflexivity.
  - vm_compute. reflexivity.
  - reflexivity.
  - reflexivity.
  - discriminate.
  - vm_compute. reflexivity.
Defined.

Lemma X9_no_page_count_example :
  fetch_ebay_listings sample_int env_no_page_count 500 []
  = Some (Raise TypeError, [] ++ [EGetSellerList 1]).
Proof.
  apply (proj1 (X9_page_count_edge_cases sample_int env_no_page_count 500 []
                  no_page_count_page [mk_listing "I1" "A" 0]
                  ltac:(lia) eq_refl eq_refl ltac:(vm_compute; reflexivity))).
  reflexivity.
Defined.

Lemma X10_single_page_example :
  fetch_ebay_listings sample_int env_ok 500 []
  = Some (Ok (concat (map (page_items sample_int env_ok []) (seq 1 1))),
          [] ++ requests_upto 1).
Proof.
  apply (X10_fetch_reads_exactly_the_reported_pages sample_int env_ok 500 1 []
           sample_listings 1).
  - lia.
  - lia.
  - intros k Hk. lia.
  - vm_compute. reflexivity.
  - lia.
Defined.

Lemma X12_updates_down_example :
  exists r tr3,
    run_sync sample_int sample_float sample_str env_updates_down 500
      "feed" "azuregreen" None []
    = Some (Ok r, tr3)
    /\ status r = "completed"
    /\ items_updated r = 0
    /\ items_failed r = len (diff sample_stock sample_listings).1
    /\ error_message r = None.
Proof.
  apply (X12_run_completes_when_every_update_fails sample_int sample_float sample_str
           env_updates_down 500 "feed" "azuregreen" None []
           [EGetFeed "feed"] [EGetFeed "feed"; EGetSellerList 1]
           sample_stock sample_listings).
  - vm_compute. reflexivity.
  - vm_compute. reflexivity.
  - intros tr' b. exact I.
Defined.

Lemma X13_sample_result_example :
  (status sample_result = "completed" /\ error_message sample_result = None
   /\ 0 <= items_updated sample_result /\ 0 <= items_failed sample_result
   /\ 0 <= items_out_of_stock sample_result /\ 0 <= unmatched_skus sample_result
   /\ unmatched_skus sample_result + items_out_of_stock sample_result
      <= total_listings_checked sample_result
   /\ items_failed sample_result
      <= total_listings_checked sample_result - unmatched_skus sample_result)
  \/ (status sample_result = "failed"
      /\ (exists message, error_message sample_result = Some message)
      /\ total_listings_checked sample_result = 0 /\ items_updated sample_result = 0
      /\ items_failed sample_result = 0
      /\ items_out_of_stock sample_result = 0 /\ unmatched_skus sample_result = 0).
Proof.
  exact (X13_result_is_completed_or_failed sample_int sample_float sample_str env_ok
           500 "feed" "azuregreen" None [] sample_trace sample_result sample_run).
Defined.

Lemma X14_sample_trace_example :
  exists n sent,
    sample_trace
    = [] ++ EGetFeed "feed" :: requests_upto n ++ map EReviseInventoryStatus sent
    /\ (status sample_result = "failed" -> sent = [])
    /\ Forall (fun b => (1 <= length b <= 4)%nat) sent
    /\ Forall (fun u => (u_new_qty u = 0 \/ u_new_qty u = 1)
                        /\ u_new_qty u <> u_old_qty u) (concat sent).
Proof.
  exact (X14_requests_of_a_run sample_int sample_float sample_str env_ok
           500 "feed" "azuregreen" None [] sample_trace sample_result
           (le_n 500) sample_run).
Defined.

Lemma X16_overstocked_listing_example :
  exists u, In u (diff sample_stock [mk_listing "I7" "A" 5]).1
    /\ u_item_id u = "I7" /\ u_sku u = "A"
    /\ u_old_qty u = 5
    /\ (u_new_qty u = 0 \/ u_new_qty u = 1).
Proof.
  apply (X16_binary_mode_revises_larger_quantities sample_int sample_float
           "azuregreen" None sample_rows sample_stock
           [mk_listing "I7" "A" 5] (mk_listing "I7" "A" 5) sample_feed_parses).
  - by left.
  - exists 1. vm_compute. reflexivity.
  - cbn. lia.
Defined.
